(** * download_discharge_data_cli.py: a shallow embedding

    The script builds one request dictionary per year and hands it to the
    [cdsapi] client unless the target file is already on disk.  The
    embedding below follows [src/data/download_discharge_data_cli.py]
    function by function:

    - Python values that occur in the request ([str], [int], lists of them)
      are the inductive [pyval]; a [dict] with string keys is a
      [gmap string pyval] (equality of Python dicts ignores insertion order,
      as does equality of [gmap]s);
    - the Python built-ins the script calls ([str], [int], [print],
      [os.path.exists], [sys.argv[1]]) are modelled on byte strings and
      unbounded integers [Z]; an argument is the UTF-8 string the operating
      system passes, and [int] reads it as CPython 3.11 does: Unicode white
      space and decimal digits are accepted and a literal of more than 4300
      digits is refused;
    - effects are explicit: a computation is a function from a [world] (the
      files of the working directory and a chronological trace of events) to
      a result (a value or a raised exception) and a new world;
    - the external [cdsapi] client is a parameter of the development: its
      constructor and its [retrieve] method are arbitrary functions that may
      change the files and may raise. *)

From Stdlib Require Import Ascii String.
From stdpp Require Import base numbers option list strings pretty gmap fin_maps.

Open Scope Z_scope.
Open Scope string_scope.
Open Scope list_scope.

(** ** Python built-ins *)

Module builtins.

(** [str(y)] for an [int]: the decimal numeral, with a leading [-] for a
    negative number.  [f'{y}'] formats an [int] the same way.  The
    interpreter writes no numeral of more than [max_str_digits] digits, see
    [str_limited] below; [int] returns no such integer. *)
Definition str (y : Z) : string := pretty y.

(** [s.strip()] as [int()] applies it: the white space of [Py_ISSPACE]
    (tab, line feed, vertical tab, form feed, carriage return, space) is
    dropped at both ends. *)
Fixpoint lstrip (s : string) : string :=
  match s with
  | String a s' => if Ascii.is_space a then lstrip s' else s
  | EmptyString => s
  end.

Definition strip (s : string) : string :=
  String.rev (lstrip (String.rev (lstrip s))).

Definition digit (a : ascii) : option Z := Z.of_nat <$> Ascii.is_nat a.

(** The digits of a base-10 literal after its first digit: a single
    underscore may separate two digits; [us] records that the previous
    character was an underscore. *)
Fixpoint digits_from (acc : Z) (us : bool) (s : string) : option Z :=
  match s with
  | EmptyString => if us then None else Some acc
  | String a s' =>
      if decide (a = "_"%char)
      then (if us then None else digits_from acc true s')
      else match digit a with
           | Some d => digits_from (10 * acc + d) false s'
           | None => None
           end
  end.

Definition digits (s : string) : option Z :=
  match s with
  | EmptyString => None
  | String a s' =>
      match digit a with
      | Some d => digits_from d false s'
      | None => None
      end
  end.

(** The limit CPython puts on the number of decimal digits that [int()]
    reads and [str()] writes ([sys.int_info.default_max_str_digits]). *)
Definition max_str_digits : N := 4300.

(** The number of digit characters of a literal; underscores do not count. *)
Fixpoint digit_count (s : string) : N :=
  match s with
  | EmptyString => 0
  | String a s' =>
      match digit a with
      | Some _ => N.succ (digit_count s')
      | None => digit_count s'
      end
  end.

Definition digits_limited (s : string) : option Z :=
  if decide (digit_count s ≤ max_str_digits)%N then digits s else None.

(** [PyLong_FromString], base 10, on the ASCII form of the argument: white
    space is stripped, a sign is read, then the digits. *)
Definition long_from_string (s : string) : option Z :=
  match strip s with
  | String "+" r => digits_limited r
  | String "-" r => Z.opp <$> digits_limited r
  | t => digits_limited t
  end.

(** The code points of a UTF-8 string, [None] when it is not well formed
    (overlong forms, surrogates and code points past U+10FFFF included).
    The interpreter decodes such an argument to a string with a lone
    surrogate, which [int()] refuses. *)
Definition continuation (b : N) : bool := (128 <=? b)%N && (b <=? 191)%N.

Fixpoint utf8_decode (s : string) : option (list N) :=
  match s with
  | EmptyString => Some []
  | String a0 s1 =>
      let b0 := N_of_ascii a0 in
      if (b0 <? 128)%N then cons b0 <$> utf8_decode s1
      else if (194 <=? b0)%N && (b0 <=? 223)%N then
        match s1 with
        | String a1 s2 =>
            let b1 := N_of_ascii a1 in
            if continuation b1
            then cons ((b0 - 192) * 64 + (b1 - 128))%N <$> utf8_decode s2
            else None
        | _ => None
        end
      else if (224 <=? b0)%N && (b0 <=? 239)%N then
        match s1 with
        | String a1 (String a2 s3) =>
            let b1 := N_of_ascii a1 in
            let b2 := N_of_ascii a2 in
            let c := ((b0 - 224) * 4096 + (b1 - 128) * 64 + (b2 - 128))%N in
            if continuation b1 && continuation b2
               && (0x800 <=? c)%N && negb ((0xD800 <=? c)%N && (c <=? 0xDFFF)%N)
            then cons c <$> utf8_decode s3
            else None
        | _ => None
        end
      else if (240 <=? b0)%N && (b0 <=? 244)%N then
        match s1 with
        | String a1 (String a2 (String a3 s4)) =>
            let b1 := N_of_ascii a1 in
            let b2 := N_of_ascii a2 in
            let b3 := N_of_ascii a3 in
            let c := ((b0 - 240) * 262144 + (b1 - 128) * 4096
                      + (b2 - 128) * 64 + (b3 - 128))%N in
            if continuation b1 && continuation b2 && continuation b3
               && (0x10000 <=? c)%N && (c <=? 0x10FFFF)%N
            then cons c <$> utf8_decode s4
            else None
        | _ => None
        end
      else None
  end.

(** [Py_UNICODE_ISSPACE] past ASCII. *)
Definition unicode_space (c : N) : bool :=
  bool_decide (c ∈ [0x85; 0xA0; 0x1680; 0x2028; 0x2029; 0x202F; 0x205F; 0x3000]%N)
  || (0x2000 <=? c)%N && (c <=? 0x200A)%N.

(** The digits zero of the decimal digits past ASCII (Unicode 14.0, the
    database of CPython 3.11); the digits one to nine follow each of them. *)
Definition decimal_zeros : list N :=
  [0x660; 0x6F0; 0x7C0; 0x966; 0x9E6; 0xA66; 0xAE6; 0xB66; 0xBE6; 0xC66;
   0xCE6; 0xD66; 0xDE6; 0xE50; 0xED0; 0xF20; 0x1040; 0x1090; 0x17E0; 0x1810;
   0x1946; 0x19D0; 0x1A80; 0x1A90; 0x1B50; 0x1BB0; 0x1C40; 0x1C50; 0xA620;
   0xA8D0; 0xA900; 0xA9D0; 0xA9F0; 0xAA50; 0xABF0; 0xFF10; 0x104A0; 0x10D30;
   0x11066; 0x110F0; 0x11136; 0x111D0; 0x112F0; 0x11450; 0x114D0; 0x11650;
   0x116C0; 0x11730; 0x118E0; 0x11950; 0x11C50; 0x11D50; 0x11DA0; 0x16A60;
   0x16AC0; 0x16B50; 0x1D7CE; 0x1D7D8; 0x1D7E2; 0x1D7EC; 0x1D7F6; 0x1E140;
   0x1E2F0; 0x1E950; 0x1FBF0]%N.

(** [Py_UNICODE_TODECIMAL] past ASCII. *)
Definition unicode_decimal (c : N) : option N :=
  (λ z, c - z)%N
    <$> List.find (λ z, (z <=? c)%N && (c <? z + 10)%N) decimal_zeros.

(** [_PyUnicode_TransformDecimalAndSpaceToASCII]: a character below 127 is
    kept, white space becomes a space, a decimal digit its ASCII digit and
    anything else a question mark. *)
Definition to_ascii (c : N) : ascii :=
  if (c <? 127)%N then ascii_of_N c
  else if unicode_space c then " "%char
  else match unicode_decimal c with
       | Some d => ascii_of_N (48 + d)
       | None => "?"%char
       end.

Definition transform (cs : list N) : string :=
  foldr (λ c s, String (to_ascii c) s) EmptyString cs.

(** [int(s)] for a string, base 10: [None] stands for the [ValueError]
    Python raises on a malformed literal or on one of more than
    [max_str_digits] digits.  The string is the argument as the operating
    system passes it, in UTF-8. *)
Definition int (s : string) : option Z :=
  cs ← utf8_decode s; long_from_string (transform cs).

(** [str(y)] as the interpreter evaluates it: a [ValueError] ([None]) when
    [y] has more than [max_str_digits] digits. *)
Definition str_limited (y : Z) : option string :=
  if decide (Z.abs y < 10 ^ Z.of_N max_str_digits) then Some (str y) else None.

End builtins.

Import builtins.

(** ** Values and dictionaries *)

#[warnings="-register-all"]
Inductive pyval : Type :=
  | PStr (s : string)
  | PInt (n : Z)
  | PList (l : list pyval).

Abbreviation dict := (gmap string pyval).

(** A dictionary display [{k1: v1, ..., kn: vn}] inserts its items from left
    to right; a later item with the same key overwrites an earlier one. *)
Definition dict_of (items : list (string * pyval)) : dict :=
  foldl (λ d kv, <[kv.1 := kv.2]> d) ∅ items.

(** A list display of string literals, and one of integer literals. *)
Definition strs (l : list string) : pyval := PList (PStr <$> l).
Definition ints (l : list Z) : pyval := PList (PInt <$> l).

(** ** Worlds, events and computations *)

(** The three functions of the script; entering one is recorded in the
    trace, so that "which path ran" is an observation of a run. *)
Inductive fname : Type := Fmain | Fretrievefull | Fretrieve.

Inductive event : Type :=
  | Enter (f : fname)
  | Print (line : string)
  | Retrieve (dataset : string) (request : dict) (target : string).

(** [files] maps every existing path of the working directory to its
    content; [trace] lists the events so far, oldest first. *)
Record world : Type := World {
  files : gmap string string;
  trace : list event
}.

Inductive exn : Type :=
  | IndexError                (* [sys.argv[1]] out of range *)
  | ValueError (lit : string) (* [int(lit)] on a malformed literal *)
  | ClientError (e : string)  (* whatever the cdsapi client raised *)
  | StrValueError (y : Z).    (* [str(y)] on more than [max_str_digits] digits *)

Inductive result (A : Type) : Type :=
  | Ok (a : A)
  | Raise (e : exn).
Arguments Ok {A} a.
Arguments Raise {A} e.

Definition M (A : Type) : Type := world → result A * world.

Global Instance M_ret : MRet M := λ A a w, (Ok a, w).

Global Instance M_bind : MBind M := λ A B k m w,
  match m w with
  | (Ok a, w') => k a w'
  | (Raise e, w') => (Raise e, w')
  end.

Definition raise {A} (e : exn) : M A := λ w, (Raise e, w).

Definition log (e : event) (w : world) : world :=
  {| files := files w; trace := trace w ++ [e] |}.

Definition enter (f : fname) : M unit := λ w, (Ok (), log (Enter f) w).

(** [print(line)] *)
Definition print (line : string) : M unit := λ w, (Ok (), log (Print line) w).

(** [os.path.exists(path)] *)
Definition path_exists (path : string) : M bool :=
  λ w, (Ok (bool_decide (is_Some (files w !! path))), w).

(** [sys.argv[i]] *)
Definition argv_get (argv : list string) (i : nat) : M string :=
  match argv !! i with
  | Some a => mret a
  | None => raise IndexError
  end.

(** [int(a)] as a computation *)
Definition int_of (a : string) : M Z :=
  match int a with
  | Some y => mret y
  | None => raise (ValueError a)
  end.

(** ** The external client *)

(** [cdsapi.Client()] and the method [retrieve(dataset, request, target)] of
    the handle it returns.  Both see the files and return the files they
    leave behind, with [Some e] when they raise. *)
Record cdsapi : Type := Cdsapi {
  Client : gmap string string → option string * gmap string string;
  Client_retrieve :
    string → dict → string → gmap string string →
    option string * gmap string string
}.

Definition outcome (r : option string) : result unit :=
  match r with
  | None => Ok ()
  | Some e => Raise (ClientError e)
  end.

(** A client whose [retrieve] writes the target file, and one whose
    [retrieve] fails after leaving a partial file. *)
Definition cds_ok : cdsapi :=
  {| Client := λ fs, (None, fs);
     Client_retrieve := λ _ _ target fs, (None, <[target := "netcdf"]> fs) |}.

Definition cds_fail : cdsapi :=
  {| Client := λ fs, (None, fs);
     Client_retrieve := λ _ _ target fs,
       (Some "403 Forbidden", <[target := ""]> fs) |}.

Definition cds_noauth : cdsapi :=
  {| Client := λ fs, (Some "Missing/incomplete configuration file", fs);
     Client_retrieve := λ _ _ target fs, (None, <[target := "netcdf"]> fs) |}.

(** Two worlds to run the script in: an empty working directory, and one
    where a truncated download of 2019 is already on disk. *)
Definition w_empty : world := {| files := ∅; trace := [] |}.

Definition w_cached : world :=
  {| files := {[ "discharge_2019_full.nc.zip" := "truncated" ]}; trace := [] |}.

(** A client that cannot reach the service: [retrieve] raises and writes
    nothing. *)
Definition cds_offline : cdsapi :=
  {| Client := λ fs, (None, fs);
     Client_retrieve := λ _ _ _ fs, (Some "Connection refused", fs) |}.

(** A working directory that holds the cropped file of 2019 only. *)
Definition w_cropped : world :=
  {| files := {[ "discharge_2019.nc.zip" := "netcdf" ]}; trace := [] |}.

(** ** The request dictionaries *)

(** The dictionary display [retrievefull(y)] passes to the client
    (lines 13-42 of the script). *)
Definition retrievefull_request (y : Z) : dict :=
  dict_of [
    ("system_version", PStr "version_4_0");
    ("variable", PStr "river_discharge_in_the_last_6_hours");
    ("model_levels", PStr "surface_level");
    ("hyear", PStr (str y));
    ("hmonth", strs [
       "01"; "02"; "03";
       "04"; "05"; "06";
       "07"; "08"; "09";
       "10"; "11"; "12"
     ]);
    ("hday", strs [
       "01"; "02"; "03";
       "04"; "05"; "06";
       "07"; "08"; "09";
       "10"; "11"; "12";
       "13"; "14"; "15";
       "16"; "17"; "18";
       "19"; "20"; "21";
       "22"; "23"; "24";
       "25"; "26"; "27";
       "28"; "29"; "30";
       "31"
     ]);
    ("time", strs [
       "00:00"; "06:00"; "12:00";
       "18:00"
     ]);
    ("format", PStr "netcdf")
  ].

(** The dictionary display [retrieve(y)] passes to the client
    (lines 50-83 of the script). *)
Definition retrieve_request (y : Z) : dict :=
  dict_of [
    ("format", PStr "netcdf");
    ("system_version", PStr "version_4_0");
    ("variable", PStr "river_discharge_in_the_last_6_hours");
    ("model_levels", PStr "surface_level");
    ("hyear", PStr (str y));
    ("hmonth", strs [
       "01"; "02"; "03";
       "04"; "05"; "06";
       "07"; "08"; "09";
       "10"; "11"; "12"
     ]);
    ("hday", strs [
       "01"; "02"; "03";
       "04"; "05"; "06";
       "07"; "08"; "09";
       "10"; "11"; "12";
       "13"; "14"; "15";
       "16"; "17"; "18";
       "19"; "20"; "21";
       "22"; "23"; "24";
       "25"; "26"; "27";
       "28"; "29"; "30";
       "31"
     ]);
    ("time", strs [
       "00:00"; "06:00"; "12:00";
       "18:00"
     ]);
    ("area", ints [
       54; 14; 49;
       20
     ])
  ].

(** ** The script *)

Section script.

(** [c = cdsapi.Client()]: the handle the two retrieval functions use. *)
Variable cds : cdsapi.

Definition c_retrieve (dataset : string) (request : dict) (target : string)
  : M unit :=
  λ w, let w1 := log (Retrieve dataset request target) w in
       let '(r, fs) := Client_retrieve cds dataset request target (files w1) in
       (outcome r, {| files := fs; trace := trace w1 |}).

Definition retrievefull (y : Z) : M unit :=
  enter Fretrievefull;;
  let filename := "discharge_" +:+ str y +:+ "_full.nc.zip" in
  b ← path_exists filename;
  if negb b then
    c_retrieve
      "efas-historical"
      (retrievefull_request y)
      filename
  else mret ().

Definition retrieve (y : Z) : M unit :=
  enter Fretrieve;;
  let filename := "discharge_" +:+ str y +:+ ".nc.zip" in
  b ← path_exists filename;
  if negb b then
    c_retrieve
      "efas-historical"
      (retrieve_request y)
      filename
  else mret ().

(** [main()]; [argv] is [sys.argv], whose first element is the script. *)
Definition main (argv : list string) : M unit :=
  enter Fmain;;
  a ← argv_get argv 1;
  y ← int_of a;
  print ("downloading year " +:+ str y);;
  retrievefull y.

(** The module body: the client is constructed when the script is loaded,
    then [main()] is called. *)
Definition client_new : M unit :=
  λ w, let '(r, fs) := Client cds (files w) in
       (outcome r, {| files := fs; trace := trace w |}).

Definition script (argv : list string) : M unit :=
  client_new;;
  main argv.

End script.

(** ** The script with the digit limit on formatting *)

(** The functions above format the year with [str], which is defined for
    every integer.  The interpreter refuses to format an integer of more
    than [max_str_digits] digits; the functions below are the same lines of
    the script with that refusal in place: in line 9 (46) for the file name,
    in line 17 (55) for ['hyear'] and in line 89 for the line printed. *)
Module guarded.
Section script.

Variable cds : cdsapi.

(** [str(y)] and [f'{y}'] *)
Definition format_year (y : Z) : M string :=
  match str_limited y with
  | Some s => mret s
  | None => raise (StrValueError y)
  end.

(** The evaluation of the dictionary display of [retrievefull(y)]: its one
    sub-expression that can raise is [str(y)]; when that returns, the value
    of the display is [retrievefull_request y]. *)
Definition retrievefull_display (y : Z) : M dict :=
  format_year y;;
  mret (retrievefull_request y).

Definition retrieve_display (y : Z) : M dict :=
  format_year y;;
  mret (retrieve_request y).

Definition retrievefull (y : Z) : M unit :=
  enter Fretrievefull;;
  s ← format_year y;
  let filename := "discharge_" +:+ s +:+ "_full.nc.zip" in
  b ← path_exists filename;
  if negb b then
    request ← retrievefull_display y;
    c_retrieve cds
      "efas-historical"
      request
      filename
  else mret ().

Definition retrieve (y : Z) : M unit :=
  enter Fretrieve;;
  s ← format_year y;
  let filename := "discharge_" +:+ s +:+ ".nc.zip" in
  b ← path_exists filename;
  if negb b then
    request ← retrieve_display y;
    c_retrieve cds
      "efas-historical"
      request
      filename
  else mret ().

Definition main (argv : list string) : M unit :=
  enter Fmain;;
  a ← argv_get argv 1;
  y ← int_of a;
  s ← format_year y;
  print ("downloading year " +:+ s);;
  retrievefull y.

End script.
End guarded.

(** ** Observations of a trace *)

(** The delegated calls of a trace, oldest first. *)
Definition delegated (t : list event) : list (string * dict * string) :=
  omap (λ e, match e with
             | Retrieve dataset request target => Some (dataset, request, target)
             | _ => None
             end) t.

(** The lines printed, oldest first. *)
Definition printed (t : list event) : list string :=
  omap (λ e, match e with Print line => Some line | _ => None end) t.

(** The functions entered, oldest first. *)
Definition entered (t : list event) : list fname :=
  omap (λ e, match e with Enter f => Some f | _ => None end) t.

(** The events a run from [w] to [w'] appended to the trace. *)
Definition new_events (w w' : world) : list event :=
  drop (length (trace w)) (trace w').

(** [sub] occurs in [s]. *)
Definition contains (s sub : string) : Prop :=
  ∃ pre post, s = pre +:+ sub +:+ post.

(** Every character of [s] satisfies [p]. *)
Fixpoint str_all (p : ascii → bool) (s : string) : bool :=
  match s with
  | EmptyString => true
  | String a s' => p a && str_all p s'
  end.

(** A path without [/] names an entry of the current working directory. *)
Definition in_cwd (path : string) : bool :=
  str_all (λ a, negb (bool_decide (a = "/"%char))) path.

(** The two-character label of a month or a day of the month. *)
Definition label2 (n : nat) : string :=
  (if decide (n < 10)%nat then "0" else "") +:+ pretty n.

(** The names of the two target files for year [y]. *)
Definition full_name (y : Z) : string := "discharge_" +:+ str y +:+ "_full.nc.zip".
Definition cropped_name (y : Z) : string := "discharge_" +:+ str y +:+ ".nc.zip".

(** ** Proof automation *)

(** Looks a key up in a dictionary display. *)
Ltac dict_lookup :=
  unfold retrievefull_request, retrieve_request, dict_of; cbn [foldl fst snd];
  repeat (rewrite lookup_insert_ne by done);
  first [ apply lookup_insert_eq | apply lookup_empty ].

(** [x ∉ l] for a list display [l] whose elements differ from [x] by their
    constructors. *)
Ltac not_in :=
  let H := fresh in
  intros H;
  repeat (apply elem_of_cons in H as [H|H]; [discriminate H|]);
  by apply elem_of_nil in H.

(** ** The built-ins on examples *)

Lemma int_examples :
  int "2019" = Some 2019 ∧ int " +2_019 " = Some 2019 ∧ int "-12" = Some (-12) ∧
  int "007" = Some 7 ∧ int "abc" = None ∧ int "" = None ∧ int "20 19" = None ∧
  int "2019.0" = None ∧ int "1__2" = None ∧ int "_1" = None ∧ int "- 1" = None.
Proof. repeat split. Qed.

Lemma str_examples : str 2019 = "2019" ∧ str 0 = "0" ∧ str (-5) = "-5".
Proof. repeat split. Qed.

(** ** Runs of the two retrieval functions *)

Lemma delegated_app t1 t2 : delegated (t1 ++ t2) = delegated t1 ++ delegated t2.
Proof. apply omap_app. Qed.

Lemma printed_app t1 t2 : printed (t1 ++ t2) = printed t1 ++ printed t2.
Proof. apply omap_app. Qed.

Lemma entered_app t1 t2 : entered (t1 ++ t2) = entered t1 ++ entered t2.
Proof. apply omap_app. Qed.

Section runs.

Variable cds : cdsapi.

Lemma c_retrieve_run dataset request target w :
  c_retrieve cds dataset request target w =
    (outcome (Client_retrieve cds dataset request target (files w)).1,
     {| files := (Client_retrieve cds dataset request target (files w)).2;
        trace := trace w ++ [Retrieve dataset request target] |}).
Proof.
  unfold c_retrieve; simpl.
  by destruct (Client_retrieve cds dataset request target (files w)).
Qed.

Lemma retrievefull_run y w :
  retrievefull cds y w =
    if bool_decide (is_Some (files w !! ("discharge_" +:+ str y +:+ "_full.nc.zip")))
    then (Ok (), log (Enter Fretrievefull) w)
    else c_retrieve cds "efas-historical" (retrievefull_request y)
           ("discharge_" +:+ str y +:+ "_full.nc.zip")
           (log (Enter Fretrievefull) w).
Proof.
  unfold retrievefull, mbind, M_bind, enter, path_exists; simpl.
  by case_bool_decide.
Qed.

Lemma retrieve_run y w :
  retrieve cds y w =
    if bool_decide (is_Some (files w !! ("discharge_" +:+ str y +:+ ".nc.zip")))
    then (Ok (), log (Enter Fretrieve) w)
    else c_retrieve cds "efas-historical" (retrieve_request y)
           ("discharge_" +:+ str y +:+ ".nc.zip")
           (log (Enter Fretrieve) w).
Proof.
  unfold retrieve, mbind, M_bind, enter, path_exists; simpl.
  by case_bool_decide.
Qed.

Lemma retrievefull_present y w content :
  files w !! ("discharge_" +:+ str y +:+ "_full.nc.zip") = Some content →
  retrievefull cds y w = (Ok (), log (Enter Fretrievefull) w).
Proof.
  intros Hf. rewrite retrievefull_run, bool_decide_eq_true_2; eauto.
Qed.

Lemma retrievefull_absent y w :
  files w !! ("discharge_" +:+ str y +:+ "_full.nc.zip") = None →
  retrievefull cds y w =
    (outcome (Client_retrieve cds "efas-historical" (retrievefull_request y)
                ("discharge_" +:+ str y +:+ "_full.nc.zip") (files w)).1,
     {| files := (Client_retrieve cds "efas-historical" (retrievefull_request y)
                    ("discharge_" +:+ str y +:+ "_full.nc.zip") (files w)).2;
        trace := trace w ++
          [Enter Fretrievefull;
           Retrieve "efas-historical" (retrievefull_request y)
             ("discharge_" +:+ str y +:+ "_full.nc.zip")] |}).
Proof.
  intros Hf. rewrite retrievefull_run, bool_decide_eq_false_2.
  - rewrite c_retrieve_run; simpl. by rewrite <-(assoc_L (++)).
  - rewrite Hf. by intros [? ?].
Qed.

Lemma retrieve_absent y w :
  files w !! ("discharge_" +:+ str y +:+ ".nc.zip") = None →
  retrieve cds y w =
    (outcome (Client_retrieve cds "efas-historical" (retrieve_request y)
                ("discharge_" +:+ str y +:+ ".nc.zip") (files w)).1,
     {| files := (Client_retrieve cds "efas-historical" (retrieve_request y)
                    ("discharge_" +:+ str y +:+ ".nc.zip") (files w)).2;
        trace := trace w ++
          [Enter Fretrieve;
           Retrieve "efas-historical" (retrieve_request y)
             ("discharge_" +:+ str y +:+ ".nc.zip")] |}).
Proof.
  intros Hf. rewrite retrieve_run, bool_decide_eq_false_2.
  - rewrite c_retrieve_run; simpl. by rewrite <-(assoc_L (++)).
  - rewrite Hf. by intros [? ?].
Qed.

End runs.

(** ** Lookups in the request dictionaries *)

Lemma retrievefull_request_hyear y :
  retrievefull_request y !! "hyear" = Some (PStr (str y)).
Proof. dict_lookup. Qed.

Lemma retrievefull_request_hmonth y :
  retrievefull_request y !! "hmonth" = Some (strs (label2 <$> seq 1 12)).
Proof. dict_lookup. Qed.

Lemma retrievefull_request_hday y :
  retrievefull_request y !! "hday" = Some (strs (label2 <$> seq 1 31)).
Proof. dict_lookup. Qed.

Lemma retrievefull_request_time y :
  retrievefull_request y !! "time"
  = Some (strs ["00:00"; "06:00"; "12:00"; "18:00"]).
Proof. dict_lookup. Qed.

Lemma retrievefull_request_no_area y : retrievefull_request y !! "area" = None.
Proof. dict_lookup. Qed.

(** ** Characters of a decimal numeral *)

Lemma str_all_app p s1 s2 :
  str_all p (s1 +:+ s2) = str_all p s1 && str_all p s2.
Proof.
  induction s1 as [|a s1 IH]; [done|].
  change (String a s1 +:+ s2) with (String a (s1 +:+ s2)); simpl.
  by rewrite IH, andb_assoc.
Qed.

Lemma str_all_pretty_N_go p x s :
  (∀ d, p (pretty_N_char d) = true) →
  str_all p s = true → str_all p (pretty_N_go x s) = true.
Proof.
  intros Hp. revert s.
  induction (N.lt_wf_0 x) as [x _ IH]; intros s Hs.
  destruct (decide (x = 0)%N) as [->|Hx]; [by rewrite pretty_N_go_0|].
  rewrite pretty_N_go_step by lia.
  apply IH; [apply N.div_lt; lia|]. simpl. by rewrite Hp, Hs.
Qed.

Lemma str_all_pretty_N p (x : N) :
  (∀ d, p (pretty_N_char d) = true) → str_all p (pretty x) = true.
Proof.
  intros Hp. unfold pretty, pretty_N. case_decide.
  - simpl. by rewrite (Hp 0%N : p "0"%char = true).
  - by apply str_all_pretty_N_go.
Qed.

Lemma str_all_str p y :
  (∀ d, p (pretty_N_char d) = true) → p "-"%char = true →
  str_all p (str y) = true.
Proof.
  intros Hp Hm. unfold str, pretty, pretty_Z. destruct y as [|x|x].
  - simpl. by rewrite (Hp 0%N : p "0"%char = true).
  - by apply (str_all_pretty_N p (Npos x)).
  - change ("-" +:+ pretty x) with (String "-" (pretty (Npos x))); simpl.
    by rewrite Hm, (str_all_pretty_N p (Npos x)).
Qed.

Lemma in_cwd_str y : in_cwd (str y) = true.
Proof.
  apply str_all_str; [|done].
  intros d. unfold pretty_N_char. by repeat case_match.
Qed.

Lemma in_cwd_full_name y : in_cwd (full_name y) = true.
Proof.
  unfold in_cwd, full_name. rewrite !str_all_app.
  by rewrite (in_cwd_str y : str_all _ _ = true).
Qed.

Lemma in_cwd_cropped_name y : in_cwd (cropped_name y) = true.
Proof.
  unfold in_cwd, cropped_name. rewrite !str_all_app.
  by rewrite (in_cwd_str y : str_all _ _ = true).
Qed.

(** ** The full retrieval path *)

Lemma label2_months :
  label2 <$> seq 1 12
  = ["01"; "02"; "03"; "04"; "05"; "06"; "07"; "08"; "09"; "10"; "11"; "12"].
Proof. reflexivity. Qed.

Lemma label2_days :
  label2 <$> seq 1 31
  = ["01"; "02"; "03"; "04"; "05"; "06"; "07"; "08"; "09"; "10";
     "11"; "12"; "13"; "14"; "15"; "16"; "17"; "18"; "19"; "20";
     "21"; "22"; "23"; "24"; "25"; "26"; "27"; "28"; "29"; "30"; "31"].
Proof. reflexivity. Qed.

(** C1: when [retrievefull(y)] builds its request (the target file is not on
    disk), the dictionary it passes to the client has ['hyear'] equal to
    [str(y)], ['hmonth'] the twelve labels '01'..'12', ['hday'] the thirty-one
    labels '01'..'31' and ['time'] the four labels '00:00', '06:00', '12:00',
    '18:00'. *)
Theorem retrievefull_request_selectors cds y w :
  files w !! full_name y = None →
  ∃ request,
    delegated (trace (retrievefull cds y w).2)
    = delegated (trace w) ++ [("efas-historical", request, full_name y)] ∧
    request !! "hyear" = Some (PStr (str y)) ∧
    request !! "hmonth" = Some (strs (label2 <$> seq 1 12)) ∧
    request !! "hday" = Some (strs (label2 <$> seq 1 31)) ∧
    request !! "time" = Some (strs ["00:00"; "06:00"; "12:00"; "18:00"]).
Proof.
  intros Hf. exists (retrievefull_request y).
  unfold full_name in *. rewrite retrievefull_absent by done; simpl.
  rewrite delegated_app.
  auto using retrievefull_request_hyear, retrievefull_request_hmonth,
    retrievefull_request_hday, retrievefull_request_time.
Qed.

Lemma retrievefull_request_selectors_witness :
  files w_empty !! full_name 2019 = None ∧
  ∃ request,
    delegated (trace (retrievefull cds_ok 2019 w_empty).2)
    = [("efas-historical", request, "discharge_2019_full.nc.zip")] ∧
    request !! "hyear" = Some (PStr "2019") ∧
    request !! "hmonth" = Some (strs (label2 <$> seq 1 12)) ∧
    request !! "hday" = Some (strs (label2 <$> seq 1 31)) ∧
    request !! "time" = Some (strs ["00:00"; "06:00"; "12:00"; "18:00"]).
Proof.
  split; [reflexivity|].
  apply (retrievefull_request_selectors cds_ok 2019 w_empty). reflexivity.
Defined.

(** C2: when the file [discharge_<y>_full.nc.zip] exists, whatever its
    content, [retrievefull(y)] returns normally, makes no delegated call and
    leaves every file as it was. *)
Theorem retrievefull_skips_existing_file cds y w content :
  files w !! full_name y = Some content →
  retrievefull cds y w = (Ok (), log (Enter Fretrievefull) w) ∧
  files (retrievefull cds y w).2 = files w ∧
  delegated (trace (retrievefull cds y w).2) = delegated (trace w).
Proof.
  intros Hf. unfold full_name in *.
  rewrite (retrievefull_present cds y w content) by done; simpl.
  rewrite delegated_app; simpl. by rewrite (right_id_L [] (++)).
Qed.

Lemma retrievefull_skips_existing_file_witness :
  files w_cached !! full_name 2019 = Some "truncated" ∧
  retrievefull cds_ok 2019 w_cached = (Ok (), log (Enter Fretrievefull) w_cached) ∧
  files (retrievefull cds_ok 2019 w_cached).2 = files w_cached ∧
  delegated (trace (retrievefull cds_ok 2019 w_cached).2) = [].
Proof.
  split; [reflexivity|].
  apply (retrievefull_skips_existing_file cds_ok 2019 w_cached "truncated").
  reflexivity.
Defined.

(** C3: when the file [discharge_<y>_full.nc.zip] does not exist,
    [retrievefull(y)] makes exactly one delegated call, with dataset
    'efas-historical' and that file name as the target. *)
Theorem retrievefull_fetches_missing_file cds y w :
  files w !! full_name y = None →
  trace (retrievefull cds y w).2
  = trace w ++ [Enter Fretrievefull;
                Retrieve "efas-historical" (retrievefull_request y)
                  ("discharge_" +:+ str y +:+ "_full.nc.zip")] ∧
  delegated (trace (retrievefull cds y w).2)
  = delegated (trace w)
    ++ [("efas-historical", retrievefull_request y,
         "discharge_" +:+ str y +:+ "_full.nc.zip")].
Proof.
  intros Hf. unfold full_name in *.
  rewrite retrievefull_absent by done; simpl.
  by rewrite delegated_app.
Qed.

Lemma retrievefull_fetches_missing_file_witness :
  files w_empty !! full_name 2019 = None ∧
  trace (retrievefull cds_fail 2019 w_empty).2
  = [Enter Fretrievefull;
     Retrieve "efas-historical" (retrievefull_request 2019)
       "discharge_2019_full.nc.zip"] ∧
  delegated (trace (retrievefull cds_fail 2019 w_empty).2)
  = [("efas-historical", retrievefull_request 2019,
      "discharge_2019_full.nc.zip")].
Proof.
  split; [reflexivity|].
  apply (retrievefull_fetches_missing_file cds_fail 2019 w_empty). reflexivity.
Defined.

(** ** The entry point *)

Lemma new_events_app w w' evs :
  trace w' = trace w ++ evs → new_events w w' = evs.
Proof. unfold new_events. intros ->. apply drop_app_length. Qed.

Lemma new_events_same_trace w w' : trace w' = trace w → new_events w w' = [].
Proof. unfold new_events. intros ->. by apply drop_all. Qed.

Lemma main_run cds argv w :
  main cds argv w =
    match argv !! 1%nat with
    | None => (Raise IndexError, log (Enter Fmain) w)
    | Some a =>
        match int a with
        | None => (Raise (ValueError a), log (Enter Fmain) w)
        | Some y =>
            retrievefull cds y
              (log (Print ("downloading year " +:+ str y)) (log (Enter Fmain) w))
        end
    end.
Proof.
  unfold main, mbind, M_bind, enter, argv_get, int_of, print.
  destruct (argv !! 1%nat) as [a|]; simpl; [|done].
  by destruct (int a).
Qed.

(** With a year [y] parsed, [main] prints the message, enters the full path
    and makes a delegated call or not, depending on the target file only. *)
Lemma main_run_year cds argv a y w :
  argv !! 1%nat = Some a → int a = Some y →
  main cds argv w =
    if bool_decide (is_Some (files w !! full_name y))
    then (Ok (),
          {| files := files w;
             trace := trace w ++ [Enter Fmain;
                                  Print ("downloading year " +:+ str y);
                                  Enter Fretrievefull] |})
    else (outcome (Client_retrieve cds "efas-historical"
                     (retrievefull_request y) (full_name y) (files w)).1,
          {| files := (Client_retrieve cds "efas-historical"
                         (retrievefull_request y) (full_name y) (files w)).2;
             trace := trace w ++ [Enter Fmain;
                                  Print ("downloading year " +:+ str y);
                                  Enter Fretrievefull;
                                  Retrieve "efas-historical"
                                    (retrievefull_request y) (full_name y)] |}).
Proof.
  intros Ha Hy. rewrite main_run, Ha, Hy. unfold full_name.
  case_bool_decide as Hf.
  - destruct Hf as [content Hf].
    rewrite (retrievefull_present cds y _ content) by done.
    unfold log; simpl. by rewrite <-!(assoc_L (++)).
  - rewrite retrievefull_absent; simpl.
    + by rewrite <-!(assoc_L (++)).
    + by apply eq_None_not_Some.
Qed.

(** The events of any run of [main]. *)
Lemma main_events cds argv w :
  new_events w (main cds argv w).2 = [Enter Fmain] ∨
  ∃ y,
    new_events w (main cds argv w).2
    = [Enter Fmain; Print ("downloading year " +:+ str y); Enter Fretrievefull] ∨
    new_events w (main cds argv w).2
    = [Enter Fmain; Print ("downloading year " +:+ str y); Enter Fretrievefull;
       Retrieve "efas-historical" (retrievefull_request y) (full_name y)].
Proof.
  destruct (argv !! 1%nat) as [a|] eqn:Ha; [destruct (int a) as [y|] eqn:Hy|].
  - right. exists y. rewrite (main_run_year cds argv a y w) by done.
    case_bool_decide; [left|right]; by apply new_events_app.
  - left. rewrite main_run, Ha, Hy. by apply new_events_app.
  - left. rewrite main_run, Ha. by apply new_events_app.
Qed.

(** No target of the full path is a target of the cropped path. *)
Lemma full_name_not_cropped y y' : full_name y ≠ cropped_name y'.
Proof.
  unfold full_name, cropped_name. intros Heq.
  apply (inj (String.app "discharge_")) in Heq.
  assert (str_all (λ a, negb (bool_decide (a = "_"%char)))
            (str y +:+ "_full.nc.zip") = true) as Hall.
  { rewrite Heq, str_all_app, str_all_str; [done| |done].
    intros d. unfold pretty_N_char. by repeat case_match. }
  rewrite str_all_app in Hall. apply andb_true_iff in Hall as [_ Hall].
  discriminate Hall.
Qed.

Lemma script_run cds argv w :
  script cds argv w =
    match (Client cds (files w)).1 with
    | None =>
        main cds argv {| files := (Client cds (files w)).2; trace := trace w |}
    | Some e =>
        (Raise (ClientError e),
         {| files := (Client cds (files w)).2; trace := trace w |})
    end.
Proof.
  unfold script, client_new, mbind, M_bind.
  by destruct (Client cds (files w)) as [[e|] fs].
Qed.

(** When the constructor of the client raises, [main] is never entered. *)
Lemma script_noauth argv w :
  script cds_noauth argv w
  = (Raise (ClientError "Missing/incomplete configuration file"), w).
Proof. rewrite script_run; simpl. by destruct w. Qed.

(** C4: called with the single argument "2019", [main] prints a line that
    contains 2019 and enters [retrievefull]; and for every argument list and
    every world, [main] never enters [retrieve] and never makes a delegated
    call of the cropped path (one with an ['area'] selector or a cropped
    target name). *)
Theorem main_2019_takes_full_path cds prog w :
  (∃ rest,
     new_events w (main cds [prog; "2019"] w).2
     = [Enter Fmain; Print "downloading year 2019"; Enter Fretrievefull] ++ rest ∧
     entered rest = [] ∧ printed rest = []) ∧
  contains "downloading year 2019" "2019" ∧
  ∀ argv w',
    (Fretrieve ∉ entered (new_events w' (main cds argv w').2)) ∧
    ∀ dataset request target,
      (dataset, request, target) ∈ delegated (new_events w' (main cds argv w').2) →
      request !! "area" = None ∧ ∀ y, target ≠ cropped_name y.
Proof.
  split; [|split].
  - rewrite (main_run_year cds [prog; "2019"] "2019" 2019 w) by done.
    case_bool_decide.
    + exists []. split; [|done]. by apply new_events_app.
    + exists [Retrieve "efas-historical" (retrievefull_request 2019)
                (full_name 2019)].
      split; [|done]. by apply new_events_app.
  - by exists "downloading year ", "".
  - intros argv w'.
    destruct (main_events cds argv w') as [->|[y [->| ->]]]; simpl.
    + split; [not_in|]. intros ???; not_in.
    + split; [not_in|]. intros ???; not_in.
    + split; [not_in|]. intros d r t Hin.
      apply list_elem_of_singleton in Hin. injection Hin as -> -> ->.
      split; [apply retrievefull_request_no_area|].
      apply full_name_not_cropped.
Qed.

Lemma main_2019_takes_full_path_witness :
  ("efas-historical", retrievefull_request 2019, "discharge_2019_full.nc.zip")
    ∈ delegated (new_events w_empty (main cds_ok ["download.py"; "2019"] w_empty).2) ∧
  retrievefull_request 2019 !! "area" = None ∧
  ∀ y, "discharge_2019_full.nc.zip" ≠ cropped_name y.
Proof.
  assert (("efas-historical", retrievefull_request 2019, "discharge_2019_full.nc.zip")
    ∈ delegated (new_events w_empty (main cds_ok ["download.py"; "2019"] w_empty).2))
    as Hin by (vm_compute; left).
  split; [exact Hin|].
  exact (proj2 (proj2 (proj2 (main_2019_takes_full_path cds_ok "" w_empty))
    ["download.py"; "2019"] w_empty) _ _ _ Hin).
Defined.

(** C5: when the argument is not an integer literal, [main] raises the
    [ValueError] of [int()] having printed nothing, made no delegated call
    and touched no file. *)
Theorem main_rejects_non_integer cds argv a w :
  argv !! 1%nat = Some a →
  int a = None →
  main cds argv w = (Raise (ValueError a), log (Enter Fmain) w) ∧
  files (main cds argv w).2 = files w ∧
  delegated (new_events w (main cds argv w).2) = [] ∧
  printed (new_events w (main cds argv w).2) = [].
Proof.
  intros Ha Hy. rewrite main_run, Ha, Hy; simpl.
  by rewrite (new_events_app w _ [Enter Fmain]).
Qed.

Lemma main_rejects_non_integer_witness :
  ["download.py"; "abc"] !! 1%nat = Some "abc" ∧
  int "abc" = None ∧
  main cds_ok ["download.py"; "abc"] w_empty
  = (Raise (ValueError "abc"), log (Enter Fmain) w_empty) ∧
  files (main cds_ok ["download.py"; "abc"] w_empty).2 = files w_empty ∧
  delegated (new_events w_empty (main cds_ok ["download.py"; "abc"] w_empty).2) = [] ∧
  printed (new_events w_empty (main cds_ok ["download.py"; "abc"] w_empty).2) = [].
Proof.
  split; [reflexivity|]. split; [reflexivity|].
  apply (main_rejects_non_integer cds_ok ["download.py"; "abc"] "abc" w_empty);
    reflexivity.
Defined.

(** ** The request builder *)

Lemma retrievefull_absent_events cds y w :
  files w !! full_name y = None →
  new_events w (retrievefull cds y w).2
  = [Enter Fretrievefull;
     Retrieve "efas-historical" (retrievefull_request y) (full_name y)].
Proof.
  intros Hf. apply new_events_app.
  unfold full_name in *. by rewrite retrievefull_absent.
Qed.

(** ** Failures of the client *)

Lemma main_run_client_failure cds argv a y w e fs :
  argv !! 1%nat = Some a → int a = Some y →
  files w !! full_name y = None →
  Client_retrieve cds "efas-historical" (retrievefull_request y) (full_name y)
    (files w) = (Some e, fs) →
  main cds argv w
  = (Raise (ClientError e),
     {| files := fs;
        trace := trace w ++
          [Enter Fmain; Print ("downloading year " +:+ str y);
           Enter Fretrievefull;
           Retrieve "efas-historical" (retrievefull_request y) (full_name y)] |}).
Proof.
  intros Ha Hy Hf Hc. rewrite (main_run_year cds argv a y w) by done.
  rewrite bool_decide_eq_false_2, Hc; [done|].
  rewrite Hf. by intros [? ?].
Qed.

(** C7: when the client raises [e] during the delegated call,
    [retrievefull(y)] raises [e]: the call is the last event of the run,
    so nothing is retried and nothing runs in its place; and [main], called
    with an argument that parses to [y], raises [e] in the same way. *)
Theorem client_failure_propagates cds y w e fs :
  files w !! full_name y = None →
  Client_retrieve cds "efas-historical" (retrievefull_request y) (full_name y)
    (files w) = (Some e, fs) →
  retrievefull cds y w
  = (Raise (ClientError e),
     {| files := fs;
        trace := trace w ++
          [Enter Fretrievefull;
           Retrieve "efas-historical" (retrievefull_request y) (full_name y)] |}) ∧
  ∀ argv a,
    argv !! 1%nat = Some a → int a = Some y →
    main cds argv w
    = (Raise (ClientError e),
       {| files := fs;
          trace := trace w ++
            [Enter Fmain; Print ("downloading year " +:+ str y);
             Enter Fretrievefull;
             Retrieve "efas-historical" (retrievefull_request y) (full_name y)] |}).
Proof.
  intros Hf Hc. split.
  - unfold full_name in *. rewrite retrievefull_absent by done.
    by rewrite Hc.
  - intros argv a Ha Hy. by apply (main_run_client_failure cds argv a).
Qed.

Lemma client_failure_propagates_witness :
  files w_empty !! full_name 2019 = None ∧
  Client_retrieve cds_fail "efas-historical" (retrievefull_request 2019)
    (full_name 2019) (files w_empty)
  = (Some "403 Forbidden", {[ "discharge_2019_full.nc.zip" := "" ]}) ∧
  (retrievefull cds_fail 2019 w_empty).1 = Raise (ClientError "403 Forbidden") ∧
  (main cds_fail ["download.py"; "2019"] w_empty).1
  = Raise (ClientError "403 Forbidden").
Proof.
  split; [reflexivity|]. split; [reflexivity|].
  destruct (client_failure_propagates cds_fail 2019 w_empty "403 Forbidden"
              {[ "discharge_2019_full.nc.zip" := "" ]} eq_refl eq_refl)
    as [Hfull Hmain].
  split.
  - exact (f_equal fst Hfull).
  - exact (f_equal fst (Hmain ["download.py"; "2019"] "2019" eq_refl eq_refl)).
Defined.

(** ** Target file names *)

Lemma retrieve_absent_events cds y w :
  files w !! cropped_name y = None →
  new_events w (retrieve cds y w).2
  = [Enter Fretrieve;
     Retrieve "efas-historical" (retrieve_request y) (cropped_name y)].
Proof.
  intros Hf. apply new_events_app.
  unfold cropped_name in *. by rewrite retrieve_absent.
Qed.

Lemma retrievefull_delegated cds y w :
  delegated (new_events w (retrievefull cds y w).2)
  = if bool_decide (is_Some (files w !! full_name y)) then []
    else [("efas-historical", retrievefull_request y, full_name y)].
Proof.
  case_bool_decide as Hf.
  - destruct Hf as [content Hf]. unfold full_name in *.
    rewrite (retrievefull_present cds y w content) by done.
    by rewrite (new_events_app w _ [Enter Fretrievefull]).
  - rewrite retrievefull_absent_events; [done|]. by apply eq_None_not_Some.
Qed.

Lemma retrieve_delegated cds y w :
  delegated (new_events w (retrieve cds y w).2)
  = if bool_decide (is_Some (files w !! cropped_name y)) then []
    else [("efas-historical", retrieve_request y, cropped_name y)].
Proof.
  case_bool_decide as Hf.
  - unfold cropped_name in *. rewrite retrieve_run, bool_decide_eq_true_2 by done.
    by rewrite (new_events_app w _ [Enter Fretrieve]).
  - rewrite retrieve_absent_events; [done|]. by apply eq_None_not_Some.
Qed.

(** C8: the file whose existence [retrievefull(y)] tests and that it names
    as the target of its call is exactly [discharge_<y>_full.nc.zip], the one
    of [retrieve(y)] is exactly [discharge_<y>.nc.zip], where [<y>] is
    [str(y)]; neither name contains a [/], so both are relative paths that
    name an entry of the current working directory. *)
Theorem target_file_names cds y w :
  delegated (new_events w (retrievefull cds y w).2)
  = (if bool_decide (is_Some (files w !! ("discharge_" +:+ str y +:+ "_full.nc.zip")))
     then []
     else [("efas-historical", retrievefull_request y,
            "discharge_" +:+ str y +:+ "_full.nc.zip")]) ∧
  delegated (new_events w (retrieve cds y w).2)
  = (if bool_decide (is_Some (files w !! ("discharge_" +:+ str y +:+ ".nc.zip")))
     then []
     else [("efas-historical", retrieve_request y,
            "discharge_" +:+ str y +:+ ".nc.zip")]) ∧
  in_cwd ("discharge_" +:+ str y +:+ "_full.nc.zip") = true ∧
  in_cwd ("discharge_" +:+ str y +:+ ".nc.zip") = true.
Proof.
  split; [apply retrievefull_delegated|].
  split; [apply retrieve_delegated|].
  split; [apply in_cwd_full_name | apply in_cwd_cropped_name].
Qed.

(** ** The two request dictionaries compared *)

(** C9: the dictionary of [retrieve(y)] is the dictionary of
    [retrievefull(y)] with the one further key ['area'], bound to
    [[54, 14, 49, 20]]; the dictionary of [retrievefull(y)] has no ['area'],
    the two agree on every other key, and both functions pass the same
    dataset identifier. *)
Theorem cropped_request_is_full_plus_area y :
  retrieve_request y = <["area" := ints [54; 14; 49; 20]]> (retrievefull_request y) ∧
  retrievefull_request y !! "area" = None ∧
  (∀ k, k ≠ "area" → retrieve_request y !! k = retrievefull_request y !! k) ∧
  dom (retrievefull_request y)
  = list_to_set ["system_version"; "variable"; "model_levels"; "hyear";
                 "hmonth"; "hday"; "time"; "format"] ∧
  ∀ cds w1 w2,
    files w1 !! full_name y = None →
    files w2 !! cropped_name y = None →
    delegated (new_events w1 (retrievefull cds y w1).2)
    = [("efas-historical", retrievefull_request y, full_name y)] ∧
    delegated (new_events w2 (retrieve cds y w2).2)
    = [("efas-historical", <["area" := ints [54; 14; 49; 20]]> (retrievefull_request y),
        cropped_name y)].
Proof.
  assert (retrieve_request y
          = <["area" := ints [54; 14; 49; 20]]> (retrievefull_request y)) as Heq.
  { unfold retrieve_request, retrievefull_request. generalize (str y) as s.
    intros s. vm_compute. reflexivity. }
  split; [exact Heq|]. split; [apply retrievefull_request_no_area|].
  split; [|split].
  - intros k Hk. by rewrite Heq, lookup_insert_ne.
  - unfold retrievefull_request. generalize (str y) as s.
    intros s. vm_compute. reflexivity.
  - intros cds w1 w2 Hf1 Hf2.
    rewrite retrievefull_absent_events, retrieve_absent_events by done.
    by rewrite Heq.
Qed.

Lemma cropped_request_is_full_plus_area_witness :
  "hyear" ≠ "area" ∧
  retrieve_request 2019 !! "hyear" = retrievefull_request 2019 !! "hyear" ∧
  files w_empty !! full_name 2019 = None ∧
  files w_empty !! cropped_name 2019 = None ∧
  delegated (new_events w_empty (retrieve cds_ok 2019 w_empty).2)
  = [("efas-historical",
      <["area" := ints [54; 14; 49; 20]]> (retrievefull_request 2019),
      "discharge_2019.nc.zip")].
Proof.
  destruct (cropped_request_is_full_plus_area 2019) as (_ & _ & Hk & _ & Hrun).
  split; [discriminate|]. split; [apply Hk; discriminate|].
  split; [reflexivity|]. split; [reflexivity|].
  exact (proj2 (Hrun cds_ok w_empty w_empty eq_refl eq_refl)).
Defined.

(** ** Order of parsing, printing and retrieving *)

(** C10: [main] reads and parses its argument before it prints: with no
    argument or with one that is not an integer literal it raises having
    printed nothing, and so does the whole script; with an argument that
    parses to [y] the line is printed before [retrievefull] is entered and
    before any delegated call, so it is on the output also when the client
    then raises. *)
Theorem main_parses_before_printing cds argv w :
  (argv !! 1%nat = None →
   main cds argv w = (Raise IndexError, log (Enter Fmain) w)) ∧
  (∀ a, argv !! 1%nat = Some a → int a = None →
        main cds argv w = (Raise (ValueError a), log (Enter Fmain) w)) ∧
  (argv !! 1%nat = None ∨ (∃ a, argv !! 1%nat = Some a ∧ int a = None) →
   (∃ e, (script cds argv w).1 = Raise e) ∧
   printed (new_events w (script cds argv w).2) = []) ∧
  (∀ a y, argv !! 1%nat = Some a → int a = Some y →
     (∃ rest,
        new_events w (main cds argv w).2
        = [Enter Fmain; Print ("downloading year " +:+ str y);
           Enter Fretrievefull] ++ rest ∧
        (rest = [] ∨
         rest = [Retrieve "efas-historical" (retrievefull_request y)
                   (full_name y)])) ∧
     printed (new_events w (main cds argv w).2) = ["downloading year " +:+ str y] ∧
     ∀ e fs,
       files w !! full_name y = None →
       Client_retrieve cds "efas-historical" (retrievefull_request y)
         (full_name y) (files w) = (Some e, fs) →
       (main cds argv w).1 = Raise (ClientError e) ∧
       printed (trace (main cds argv w).2)
       = printed (trace w) ++ ["downloading year " +:+ str y]).
Proof.
  split; [|split; [|split]].
  - intros Ha. by rewrite main_run, Ha.
  - intros a Ha Hy. by rewrite main_run, Ha, Hy.
  - intros Hbad. rewrite script_run.
    destruct (Client cds (files w)) as [[e|] fs]; simpl.
    + split; [by eexists|]. by rewrite (new_events_same_trace w).
    + rewrite main_run.
      destruct Hbad as [Ha|(a & Ha & Hy)]; rewrite Ha, ?Hy; simpl;
        (split; [by eexists|]);
        by rewrite (new_events_app w _ [Enter Fmain]).
  - intros a y Ha Hy. split; [|split].
    + rewrite (main_run_year cds argv a y w) by done. case_bool_decide.
      * exists []. split; [by apply new_events_app | by left].
      * eexists. split; [by apply new_events_app | by right].
    + rewrite (main_run_year cds argv a y w) by done.
      case_bool_decide; simpl.
      * by rewrite (new_events_app w _
          [Enter Fmain; Print ("downloading year " +:+ str y);
           Enter Fretrievefull]).
      * by rewrite (new_events_app w _
          [Enter Fmain; Print ("downloading year " +:+ str y);
           Enter Fretrievefull;
           Retrieve "efas-historical" (retrievefull_request y) (full_name y)]).
    + intros e fs Hf Hc.
      rewrite (main_run_client_failure cds argv a y w e fs) by done.
      simpl. by rewrite printed_app.
Qed.

Lemma main_parses_before_printing_witness :
  (["download.py"] !! 1%nat = None ∧
   main cds_ok ["download.py"] w_empty
   = (Raise IndexError, log (Enter Fmain) w_empty)) ∧
  (["download.py"; "abc"] !! 1%nat = Some "abc" ∧ int "abc" = None ∧
   main cds_ok ["download.py"; "abc"] w_empty
   = (Raise (ValueError "abc"), log (Enter Fmain) w_empty) ∧
   printed (new_events w_empty (script cds_ok ["download.py"; "abc"] w_empty).2) = []) ∧
  (["download.py"; "2019"] !! 1%nat = Some "2019" ∧ int "2019" = Some 2019 ∧
   files w_empty !! full_name 2019 = None ∧
   (main cds_fail ["download.py"; "2019"] w_empty).1
   = Raise (ClientError "403 Forbidden") ∧
   printed (trace (main cds_fail ["download.py"; "2019"] w_empty).2)
   = ["downloading year 2019"]).
Proof.
  split; [|split].
  - split; [reflexivity|].
    exact (proj1 (main_parses_before_printing cds_ok ["download.py"] w_empty)
             eq_refl).
  - split; [reflexivity|]. split; [reflexivity|].
    destruct (main_parses_before_printing cds_ok ["download.py"; "abc"] w_empty)
      as (_ & Hbad & Hscript & _).
    split; [exact (Hbad "abc" eq_refl eq_refl)|].
    apply Hscript. right. exists "abc". split; reflexivity.
  - split; [reflexivity|]. split; [reflexivity|]. split; [reflexivity|].
    destruct (main_parses_before_printing cds_fail ["download.py"; "2019"] w_empty)
      as (_ & _ & _ & Hgood).
    destruct (Hgood "2019" 2019 eq_refl eq_refl) as (_ & _ & Hfail).
    exact (Hfail "403 Forbidden" {[ "discharge_2019_full.nc.zip" := "" ]}
             eq_refl eq_refl).
Defined.


(** ** The cropped retrieval path *)

Lemma retrieve_present cds y w content :
  files w !! cropped_name y = Some content →
  retrieve cds y w = (Ok (), log (Enter Fretrieve) w).
Proof.
  intros Hf. unfold cropped_name in *.
  rewrite retrieve_run, bool_decide_eq_true_2; eauto.
Qed.

(** X1: when the file [discharge_<y>.nc.zip] exists, whatever its content,
    [retrieve(y)] returns normally, makes no delegated call and leaves every
    file as it was. *)
Theorem retrieve_skips_existing_file cds y w content :
  files w !! cropped_name y = Some content →
  retrieve cds y w = (Ok (), log (Enter Fretrieve) w) ∧
  files (retrieve cds y w).2 = files w ∧
  delegated (new_events w (retrieve cds y w).2) = [].
Proof.
  intros Hf. rewrite (retrieve_present cds y w content) by done; simpl.
  by rewrite (new_events_app w _ [Enter Fretrieve]).
Qed.

Lemma retrieve_skips_existing_file_witness :
  files w_cropped !! cropped_name 2019 = Some "netcdf" ∧
  retrieve cds_ok 2019 w_cropped = (Ok (), log (Enter Fretrieve) w_cropped) ∧
  files (retrieve cds_ok 2019 w_cropped).2 = files w_cropped ∧
  delegated (new_events w_cropped (retrieve cds_ok 2019 w_cropped).2) = [].
Proof.
  split; [reflexivity|].
  apply (retrieve_skips_existing_file cds_ok 2019 w_cropped "netcdf").
  reflexivity.
Defined.

(** X2: when the file [discharge_<y>.nc.zip] does not exist, [retrieve(y)]
    makes exactly one delegated call, for dataset 'efas-historical' with the
    cropped request and that file name as target; the call is the last thing
    it does: it returns normally when the client does and raises what the
    client raises, and the files are those the client leaves. *)
Theorem retrieve_fetches_missing_file cds y w :
  files w !! cropped_name y = None →
  new_events w (retrieve cds y w).2
  = [Enter Fretrieve;
     Retrieve "efas-historical" (retrieve_request y)
       ("discharge_" +:+ str y +:+ ".nc.zip")] ∧
  (retrieve cds y w).1
  = outcome (Client_retrieve cds "efas-historical" (retrieve_request y)
               ("discharge_" +:+ str y +:+ ".nc.zip") (files w)).1 ∧
  files (retrieve cds y w).2
  = (Client_retrieve cds "efas-historical" (retrieve_request y)
       ("discharge_" +:+ str y +:+ ".nc.zip") (files w)).2.
Proof.
  intros Hf. split; [by apply retrieve_absent_events|].
  unfold cropped_name in *. by rewrite retrieve_absent.
Qed.

Lemma retrieve_fetches_missing_file_witness :
  files w_cached !! cropped_name 2019 = None ∧
  new_events w_cached (retrieve cds_fail 2019 w_cached).2
  = [Enter Fretrieve;
     Retrieve "efas-historical" (retrieve_request 2019) "discharge_2019.nc.zip"] ∧
  (retrieve cds_fail 2019 w_cached).1 = Raise (ClientError "403 Forbidden") ∧
  files (retrieve cds_fail 2019 w_cached).2
  = <["discharge_2019.nc.zip" := ""]> (files w_cached).
Proof.
  split; [reflexivity|].
  apply (retrieve_fetches_missing_file cds_fail 2019 w_cached). reflexivity.
Defined.

(** X3: besides the year, what the two requests select is fixed: system
    version 'version_4_0', variable 'river_discharge_in_the_last_6_hours',
    model level 'surface_level' and format 'netcdf', in both; the cropped
    request has the nine keys of the display and no other, with ['area'] the
    four integers 54, 14, 49, 20. *)
Theorem request_fixed_selectors y :
  (∀ request, request = retrievefull_request y ∨ request = retrieve_request y →
     request !! "system_version" = Some (PStr "version_4_0") ∧
     request !! "variable" = Some (PStr "river_discharge_in_the_last_6_hours") ∧
     request !! "model_levels" = Some (PStr "surface_level") ∧
     request !! "format" = Some (PStr "netcdf")) ∧
  retrieve_request y !! "area" = Some (PList [PInt 54; PInt 14; PInt 49; PInt 20]) ∧
  dom (retrieve_request y)
  = list_to_set ["format"; "system_version"; "variable"; "model_levels";
                 "hyear"; "hmonth"; "hday"; "time"; "area"].
Proof.
  split; [|split].
  - intros request [-> | ->]; repeat split; dict_lookup.
  - dict_lookup.
  - unfold retrieve_request. generalize (str y) as s.
    intros s. vm_compute. reflexivity.
Qed.

Lemma request_fixed_selectors_witness :
  retrieve_request (-5) !! "format" = Some (PStr "netcdf") ∧
  retrievefull_request (-5) !! "variable"
  = Some (PStr "river_discharge_in_the_last_6_hours").
Proof.
  destruct (request_fixed_selectors (-5)) as [Hfix _].
  split.
  - apply (Hfix (retrieve_request (-5))). by right.
  - apply (Hfix (retrievefull_request (-5))). by left.
Defined.

(** ** Requests and target names across years *)

Lemma app_nil_l (t : string) : "" +:+ t = t.
Proof. reflexivity. Qed.

Lemma app_cons_l a (s t : string) : String a s +:+ t = String a (s +:+ t).
Proof. reflexivity. Qed.

Lemma str_length_app (s t : string) :
  String.length (s +:+ t) = (String.length s + String.length t)%nat.
Proof.
  induction s as [|a s IH]; [done|].
  rewrite app_cons_l; simpl. by rewrite IH.
Qed.

(** A common suffix cancels. *)
Lemma app_inj_r (s1 s2 t : string) : s1 +:+ t = s2 +:+ t → s1 = s2.
Proof.
  revert s2. induction s1 as [|a s1 IH]; intros [|b s2] Heq.
  - done.
  - apply (f_equal String.length) in Heq.
    rewrite app_nil_l, app_cons_l in Heq; simpl in Heq.
    rewrite str_length_app in Heq. lia.
  - apply (f_equal String.length) in Heq.
    rewrite app_nil_l, app_cons_l in Heq; simpl in Heq.
    rewrite str_length_app in Heq. lia.
  - rewrite !app_cons_l in Heq. injection Heq as -> Heq.
    f_equal. by apply IH.
Qed.

Lemma retrievefull_request_hyear_insert y1 y2 :
  retrievefull_request y1 = <["hyear" := PStr (str y1)]> (retrievefull_request y2).
Proof.
  unfold retrievefull_request.
  generalize (str y1) as s1, (str y2) as s2. intros s1 s2.
  vm_compute. reflexivity.
Qed.

Lemma retrieve_request_hyear_insert y1 y2 :
  retrieve_request y1 = <["hyear" := PStr (str y1)]> (retrieve_request y2).
Proof.
  unfold retrieve_request.
  generalize (str y1) as s1, (str y2) as s2. intros s1 s2.
  vm_compute. reflexivity.
Qed.

Lemma retrieve_request_hyear y :
  retrieve_request y !! "hyear" = Some (PStr (str y)).
Proof. dict_lookup. Qed.

(** X4: the year enters a request through ['hyear'] only: the requests of
    two years agree on every other key, and the requests of two different
    years are different dictionaries, on the full and on the cropped path. *)
Theorem requests_vary_in_hyear_only y1 y2 :
  (∀ k, k ≠ "hyear" →
        retrievefull_request y1 !! k = retrievefull_request y2 !! k ∧
        retrieve_request y1 !! k = retrieve_request y2 !! k) ∧
  (retrievefull_request y1 = retrievefull_request y2 → y1 = y2) ∧
  (retrieve_request y1 = retrieve_request y2 → y1 = y2).
Proof.
  split; [|split].
  - intros k Hk.
    rewrite (retrievefull_request_hyear_insert y1 y2),
      (retrieve_request_hyear_insert y1 y2).
    by rewrite !lookup_insert_ne.
  - intros Heq. apply (f_equal (.!! "hyear")) in Heq.
    rewrite !retrievefull_request_hyear in Heq.
    injection Heq as Heq. by apply (inj pretty) in Heq.
  - intros Heq. apply (f_equal (.!! "hyear")) in Heq.
    rewrite !retrieve_request_hyear in Heq.
    injection Heq as Heq. by apply (inj pretty) in Heq.
Qed.

Lemma requests_vary_in_hyear_only_witness :
  "hday" ≠ "hyear" ∧
  retrievefull_request 2019 !! "hday" = retrievefull_request 2020 !! "hday" ∧
  retrieve_request 2019 !! "hday" = retrieve_request 2020 !! "hday".
Proof.
  split; [discriminate|].
  apply (proj1 (requests_vary_in_hyear_only 2019 2020) "hday"). discriminate.
Defined.

(** X5: target names identify the year and the path: two years never share
    a full target nor a cropped target, and no full target is a cropped
    target of any year; so a file on disk suppresses the download of its own
    year and path only. *)
Theorem target_names_distinct y1 y2 :
  ("discharge_" +:+ str y1 +:+ "_full.nc.zip"
   = "discharge_" +:+ str y2 +:+ "_full.nc.zip" → y1 = y2) ∧
  ("discharge_" +:+ str y1 +:+ ".nc.zip"
   = "discharge_" +:+ str y2 +:+ ".nc.zip" → y1 = y2) ∧
  "discharge_" +:+ str y1 +:+ "_full.nc.zip"
  ≠ "discharge_" +:+ str y2 +:+ ".nc.zip" ∧
  ∀ cds w content,
    files w !! ("discharge_" +:+ str y1 +:+ "_full.nc.zip") = Some content →
    files w !! ("discharge_" +:+ str y2 +:+ "_full.nc.zip") = None →
    delegated (new_events w (retrievefull cds y1 w).2) = [] ∧
    delegated (new_events w (retrievefull cds y2 w).2)
    = [("efas-historical", retrievefull_request y2,
        "discharge_" +:+ str y2 +:+ "_full.nc.zip")].
Proof.
  split; [|split; [|split]].
  - intros Heq. apply (inj (String.app "discharge_")), app_inj_r in Heq.
    by apply (inj pretty) in Heq.
  - intros Heq. apply (inj (String.app "discharge_")), app_inj_r in Heq.
    by apply (inj pretty) in Heq.
  - apply full_name_not_cropped.
  - intros cds w content Hf1 Hf2. rewrite !retrievefull_delegated.
    unfold full_name.
    rewrite bool_decide_eq_true_2, bool_decide_eq_false_2; [done| |by eauto].
    rewrite Hf2. by intros [? ?].
Qed.

Lemma target_names_distinct_witness :
  files w_cached !! ("discharge_" +:+ str 2019 +:+ "_full.nc.zip")
  = Some "truncated" ∧
  files w_cached !! ("discharge_" +:+ str 2020 +:+ "_full.nc.zip") = None ∧
  delegated (new_events w_cached (retrievefull cds_ok 2019 w_cached).2) = [] ∧
  delegated (new_events w_cached (retrievefull cds_ok 2020 w_cached).2)
  = [("efas-historical", retrievefull_request 2020, "discharge_2020_full.nc.zip")].
Proof.
  split; [reflexivity|]. split; [reflexivity|].
  apply (proj2 (proj2 (proj2 (target_names_distinct 2019 2020)))
           cds_ok w_cached "truncated"); reflexivity.
Defined.


(** ** Running twice *)

(** X6: once a run of [retrievefull(y)] has left the target file on disk,
    complete or not, and whether the client returned or raised, a second run
    returns normally without a call: over both runs there is one delegated
    call. *)
Theorem retrievefull_rerun_skips cds cds' y w :
  files w !! full_name y = None →
  is_Some ((Client_retrieve cds "efas-historical" (retrievefull_request y)
              (full_name y) (files w)).2 !! full_name y) →
  retrievefull cds' y (retrievefull cds y w).2
  = (Ok (), log (Enter Fretrievefull) (retrievefull cds y w).2) ∧
  delegated (new_events w (retrievefull cds' y (retrievefull cds y w).2).2)
  = [("efas-historical", retrievefull_request y, full_name y)].
Proof.
  intros Hf [content Hleft].
  assert (files (retrievefull cds y w).2 !! full_name y = Some content) as Hf1.
  { unfold full_name in *. by rewrite retrievefull_absent. }
  unfold full_name in Hf1.
  rewrite (retrievefull_present cds' y _ content) by done.
  split; [done|]. unfold full_name in Hf.
  rewrite retrievefull_absent by done. unfold log; simpl.
  rewrite <-(assoc_L (++)).
  by erewrite new_events_app by (simpl; reflexivity).
Qed.

Lemma retrievefull_rerun_skips_witness :
  files w_empty !! full_name 2019 = None ∧
  is_Some ((Client_retrieve cds_fail "efas-historical" (retrievefull_request 2019)
              (full_name 2019) (files w_empty)).2 !! full_name 2019) ∧
  (retrievefull cds_fail 2019 w_empty).1 = Raise (ClientError "403 Forbidden") ∧
  (retrievefull cds_ok 2019 (retrievefull cds_fail 2019 w_empty).2).1 = Ok () ∧
  delegated (new_events w_empty
               (retrievefull cds_ok 2019 (retrievefull cds_fail 2019 w_empty).2).2)
  = [("efas-historical", retrievefull_request 2019, full_name 2019)].
Proof.
  assert (is_Some ((Client_retrieve cds_fail "efas-historical"
                      (retrievefull_request 2019) (full_name 2019)
                      (files w_empty)).2 !! full_name 2019)) as Hleft
    by (exists ""; reflexivity).
  split; [reflexivity|]. split; [exact Hleft|]. split; [reflexivity|].
  destruct (retrievefull_rerun_skips cds_fail cds_ok 2019 w_empty eq_refl Hleft)
    as [Hrun Hcalls].
  split; [exact (f_equal fst Hrun) | exact Hcalls].
Defined.

(** X7: when a run of [retrievefull(y)] ends with the target file still
    missing, a second run makes the same call again; what it returns or
    raises is what the client does the second time. *)
Theorem retrievefull_rerun_retries cds cds' y w :
  files w !! full_name y = None →
  (Client_retrieve cds "efas-historical" (retrievefull_request y)
     (full_name y) (files w)).2 !! full_name y = None →
  delegated (new_events w (retrievefull cds' y (retrievefull cds y w).2).2)
  = [("efas-historical", retrievefull_request y, full_name y);
     ("efas-historical", retrievefull_request y, full_name y)] ∧
  (retrievefull cds' y (retrievefull cds y w).2).1
  = outcome (Client_retrieve cds' "efas-historical" (retrievefull_request y)
               (full_name y) (files (retrievefull cds y w).2)).1.
Proof.
  intros Hf Hleft.
  assert (files (retrievefull cds y w).2 !! full_name y = None) as Hf1.
  { unfold full_name in *. by rewrite retrievefull_absent. }
  unfold full_name in Hf1.
  rewrite (retrievefull_absent cds' y _ Hf1); simpl. split; [|done].
  unfold full_name in Hf. rewrite retrievefull_absent by done; simpl.
  rewrite <-(assoc_L (++)).
  by erewrite new_events_app by (simpl; reflexivity).
Qed.

Lemma retrievefull_rerun_retries_witness :
  files w_empty !! full_name 2019 = None ∧
  (Client_retrieve cds_offline "efas-historical" (retrievefull_request 2019)
     (full_name 2019) (files w_empty)).2 !! full_name 2019 = None ∧
  delegated (new_events w_empty
               (retrievefull cds_ok 2019 (retrievefull cds_offline 2019 w_empty).2).2)
  = [("efas-historical", retrievefull_request 2019, full_name 2019);
     ("efas-historical", retrievefull_request 2019, full_name 2019)] ∧
  (retrievefull cds_ok 2019 (retrievefull cds_offline 2019 w_empty).2).1 = Ok ().
Proof.
  split; [reflexivity|]. split; [reflexivity|].
  apply (retrievefull_rerun_retries cds_offline cds_ok 2019 w_empty); reflexivity.
Defined.

(** ** The module body *)

(** X8: the client is constructed before the arguments are looked at: when
    the constructor raises, the script raises that exception whatever the
    arguments are, with nothing printed, no function entered and no delegated
    call; when it returns, the script is [main] run on the files the
    constructor left. *)
Theorem script_constructs_client_first cds argv w :
  (∀ e, (Client cds (files w)).1 = Some e →
        (script cds argv w).1 = Raise (ClientError e) ∧
        new_events w (script cds argv w).2 = [] ∧
        files (script cds argv w).2 = (Client cds (files w)).2) ∧
  ((Client cds (files w)).1 = None →
   script cds argv w
   = main cds argv {| files := (Client cds (files w)).2; trace := trace w |}).
Proof.
  rewrite script_run. split.
  - intros e ->; simpl. by rewrite (new_events_same_trace w).
  - by intros ->.
Qed.

Lemma script_constructs_client_first_witness :
  (Client cds_noauth (files w_empty)).1
  = Some "Missing/incomplete configuration file" ∧
  (script cds_noauth ["download.py"] w_empty).1
  = Raise (ClientError "Missing/incomplete configuration file") ∧
  (Client cds_ok (files w_cached)).1 = None ∧
  script cds_ok ["download.py"; "2019"] w_cached
  = main cds_ok ["download.py"; "2019"] w_cached.
Proof.
  split; [reflexivity|]. split.
  - exact (proj1 (proj1 (script_constructs_client_first cds_noauth
                           ["download.py"] w_empty) _ eq_refl)).
  - split; [reflexivity|].
    exact (proj2 (script_constructs_client_first cds_ok
                    ["download.py"; "2019"] w_cached) eq_refl).
Defined.

(** ** Outcomes of the entry point *)

Lemma main_result cds argv w :
  (main cds argv w).1 =
    match argv !! 1%nat with
    | None => Raise IndexError
    | Some a =>
        match int a with
        | None => Raise (ValueError a)
        | Some y =>
            if bool_decide (is_Some (files w !! full_name y)) then Ok ()
            else outcome (Client_retrieve cds "efas-historical"
                            (retrievefull_request y) (full_name y) (files w)).1
        end
    end.
Proof.
  destruct (argv !! 1%nat) as [a|] eqn:Ha; [destruct (int a) as [y|] eqn:Hy|].
  - rewrite (main_run_year cds argv a y w) by done. by case_bool_decide.
  - by rewrite main_run, Ha, Hy.
  - by rewrite main_run, Ha.
Qed.

Lemma main_new_events cds argv w :
  new_events w (main cds argv w).2 =
    match argv !! 1%nat with
    | None => [Enter Fmain]
    | Some a =>
        match int a with
        | None => [Enter Fmain]
        | Some y =>
            [Enter Fmain; Print ("downloading year " +:+ str y);
             Enter Fretrievefull]
            ++ (if bool_decide (is_Some (files w !! full_name y)) then []
                else [Retrieve "efas-historical" (retrievefull_request y)
                        (full_name y)])
        end
    end.
Proof.
  destruct (argv !! 1%nat) as [a|] eqn:Ha; [destruct (int a) as [y|] eqn:Hy|].
  - rewrite (main_run_year cds argv a y w) by done.
    case_bool_decide; by apply new_events_app.
  - rewrite main_run, Ha, Hy. by apply new_events_app.
  - rewrite main_run, Ha. by apply new_events_app.
Qed.

Lemma main_files cds argv w :
  files (main cds argv w).2 =
    match argv !! 1%nat with
    | None => files w
    | Some a =>
        match int a with
        | None => files w
        | Some y =>
            if bool_decide (is_Some (files w !! full_name y)) then files w
            else (Client_retrieve cds "efas-historical"
                    (retrievefull_request y) (full_name y) (files w)).2
        end
    end.
Proof.
  destruct (argv !! 1%nat) as [a|] eqn:Ha; [destruct (int a) as [y|] eqn:Hy|].
  - rewrite (main_run_year cds argv a y w) by done. by case_bool_decide.
  - by rewrite main_run, Ha, Hy.
  - by rewrite main_run, Ha.
Qed.

(** X9: [main] uses its argument through [int()] only: two argument lists
    whose second elements are literals of the same integer (with white space,
    a plus sign, leading zeros or underscores) give the same run, whatever
    the script name and the further arguments are. *)
Theorem main_depends_on_parsed_year cds argv argv' a a' y w :
  argv !! 1%nat = Some a →
  argv' !! 1%nat = Some a' →
  int a = Some y →
  int a' = Some y →
  main cds argv w = main cds argv' w.
Proof.
  intros Ha Ha' Hy Hy'.
  by rewrite (main_run_year cds argv a y w), (main_run_year cds argv' a' y w).
Qed.

Lemma main_depends_on_parsed_year_witness :
  ["download.py"; "2019"] !! 1%nat = Some "2019" ∧
  ["./cli"; " +002_019 "; "--force"] !! 1%nat = Some " +002_019 " ∧
  int "2019" = Some 2019 ∧
  int " +002_019 " = Some 2019 ∧
  main cds_ok ["download.py"; "2019"] w_empty
  = main cds_ok ["./cli"; " +002_019 "; "--force"] w_empty.
Proof.
  split; [reflexivity|]. split; [reflexivity|].
  split; [reflexivity|]. split; [reflexivity|].
  apply (main_depends_on_parsed_year cds_ok _ _ "2019" " +002_019 " 2019);
    reflexivity.
Defined.

(** X10: the outcomes of [main], each with the inputs that lead to it:
    [IndexError] exactly when [sys.argv] has fewer than two elements; the
    [ValueError] of [int()] exactly when the second element is not an integer
    literal; an exception of the client exactly when the year parses, the
    target file is missing and the client raises it; a normal return exactly
    when the year parses and the file is there or the client returns. *)
Theorem main_outcomes cds argv w :
  ((main cds argv w).1 = Raise IndexError ↔ (length argv ≤ 1)%nat) ∧
  (∀ lit, (main cds argv w).1 = Raise (ValueError lit) ↔
          argv !! 1%nat = Some lit ∧ int lit = None) ∧
  (∀ e, (main cds argv w).1 = Raise (ClientError e) ↔
        ∃ a y, argv !! 1%nat = Some a ∧ int a = Some y ∧
               files w !! full_name y = None ∧
               (Client_retrieve cds "efas-historical" (retrievefull_request y)
                  (full_name y) (files w)).1 = Some e) ∧
  ((main cds argv w).1 = Ok () ↔
   ∃ a y, argv !! 1%nat = Some a ∧ int a = Some y ∧
          (is_Some (files w !! full_name y) ∨
           (Client_retrieve cds "efas-historical" (retrievefull_request y)
              (full_name y) (files w)).1 = None)).
Proof.
  rewrite main_result, <-(lookup_ge_None argv 1).
  destruct (argv !! 1%nat) as [a|] eqn:Ha; [destruct (int a) as [y|] eqn:Hy|].
  - case_bool_decide as Hf.
    + split; [|split; [|split]].
      * split; intros H; discriminate H.
      * intros lit. split; [intros H; discriminate H|].
        intros [[= <-] Hn]. congruence.
      * intros e. split; [intros H; discriminate H|].
        intros (a' & y' & [= <-] & Hy' & Hnone & _).
        rewrite Hy in Hy'. injection Hy' as <-.
        rewrite Hnone in Hf. by destruct Hf.
      * split; [|done]. intros _. exists a, y. auto.
    + apply eq_None_not_Some in Hf.
      destruct (Client_retrieve cds "efas-historical" (retrievefull_request y)
                  (full_name y) (files w)) as [[e'|] fs] eqn:Hc; simpl;
        (split; [|split; [|split]]).
      * split; intros H; discriminate H.
      * intros lit. split; [intros H; discriminate H|].
        intros [[= <-] Hn]. congruence.
      * intros e. split.
        -- intros [= <-]. exists a, y. rewrite Hc. auto.
        -- intros (a' & y' & [= <-] & Hy' & _ & Hsome).
           rewrite Hy in Hy'. injection Hy' as <-.
           rewrite Hc in Hsome. simpl in Hsome. by injection Hsome as <-.
      * split; [intros H; discriminate H|].
        intros (a' & y' & [= <-] & Hy' & [Hsome|Hnone]);
          rewrite Hy in Hy'; injection Hy' as <-.
        -- rewrite Hf in Hsome. by destruct Hsome.
        -- rewrite Hc in Hnone. discriminate Hnone.
      * split; intros H; discriminate H.
      * intros lit. split; [intros H; discriminate H|].
        intros [[= <-] Hn]. congruence.
      * intros e. split; [intros H; discriminate H|].
        intros (a' & y' & [= <-] & Hy' & _ & Hsome).
        rewrite Hy in Hy'. injection Hy' as <-.
        rewrite Hc in Hsome. discriminate Hsome.
      * split; [|done]. intros _. exists a, y. rewrite Hc. auto.
  - split; [|split; [|split]].
    + split; intros H; discriminate H.
    + intros lit. split; [by intros [= <-]|]. by intros [[= <-] _].
    + intros e. split; [intros H; discriminate H|].
      intros (a' & y' & [= <-] & Hy' & _). congruence.
    + split; [intros H; discriminate H|].
      intros (a' & y' & [= <-] & Hy' & _). congruence.
  - split; [|split; [|split]].
    + done.
    + intros lit. split; [intros H; discriminate H|].
      intros [H _]. discriminate H.
    + intros e. split; [intros H; discriminate H|].
      intros (a' & y' & H & _). discriminate H.
    + split; [intros H; discriminate H|].
      intros (a' & y' & H & _). discriminate H.
Qed.

Lemma main_outcomes_witness :
  (length ["download.py"] ≤ 1)%nat ∧
  (main cds_ok ["download.py"] w_cached).1 = Raise IndexError ∧
  (main cds_ok ["download.py"; ""] w_cached).1 = Raise (ValueError "") ∧
  ["download.py"; ""] !! 1%nat = Some "" ∧ int "" = None.
Proof.
  destruct (main_outcomes cds_ok ["download.py"] w_cached) as [Hidx _].
  destruct (main_outcomes cds_ok ["download.py"; ""] w_cached) as (_ & Hval & _).
  split; [simpl; lia|]. split; [apply Hidx; simpl; lia|].
  split; [reflexivity|]. apply (Hval ""). reflexivity.
Defined.

(** X11: in every run of [main] there is at most one delegated call and at
    most one printed line; and when there is a call, its dataset is
    'efas-historical', its target file was missing when [main] started, and
    one and the same year is in the target name, in the ['hyear'] selector
    and in the line printed. *)
Theorem main_call_matches_message cds argv w :
  (length (delegated (new_events w (main cds argv w).2)) ≤ 1)%nat ∧
  (length (printed (new_events w (main cds argv w).2)) ≤ 1)%nat ∧
  ∀ dataset request target,
    (dataset, request, target) ∈ delegated (new_events w (main cds argv w).2) →
    dataset = "efas-historical" ∧
    files w !! target = None ∧
    ∃ y, target = "discharge_" +:+ str y +:+ "_full.nc.zip" ∧
         request !! "hyear" = Some (PStr (str y)) ∧
         printed (new_events w (main cds argv w).2)
         = ["downloading year " +:+ str y].
Proof.
  rewrite main_new_events.
  destruct (argv !! 1%nat) as [a|]; [destruct (int a) as [y|]|].
  - case_bool_decide as Hf; simpl.
    + split; [lia|]. split; [lia|]. intros ???; not_in.
    + split; [lia|]. split; [lia|]. intros d r t Hin.
      apply list_elem_of_singleton in Hin. injection Hin as -> -> ->.
      split; [done|]. split; [by apply eq_None_not_Some|].
      exists y. split; [done|]. split; [apply retrievefull_request_hyear|done].
  - simpl. split; [lia|]. split; [lia|]. intros ???; not_in.
  - simpl. split; [lia|]. split; [lia|]. intros ???; not_in.
Qed.

Lemma main_call_matches_message_witness :
  ("efas-historical", retrievefull_request (-44), "discharge_-44_full.nc.zip")
    ∈ delegated (new_events w_cached (main cds_ok [""; "-44"] w_cached).2) ∧
  files w_cached !! "discharge_-44_full.nc.zip" = None ∧
  ∃ y, "discharge_-44_full.nc.zip" = "discharge_" +:+ str y +:+ "_full.nc.zip" ∧
       retrievefull_request (-44) !! "hyear" = Some (PStr (str y)) ∧
       printed (new_events w_cached (main cds_ok [""; "-44"] w_cached).2)
       = ["downloading year " +:+ str y].
Proof.
  assert (("efas-historical", retrievefull_request (-44), "discharge_-44_full.nc.zip")
    ∈ delegated (new_events w_cached (main cds_ok [""; "-44"] w_cached).2))
    as Hin by (vm_compute; left).
  split; [exact Hin|].
  exact (proj2 (proj2 (proj2 (main_call_matches_message cds_ok [""; "-44"] w_cached))
                  _ _ _ Hin)).
Defined.

(** X12: [main] writes no file itself: with a client whose [retrieve]
    changes no path but its target, every path other than the target of the
    year asked for is after the run as it was before, also when [main]
    raises. *)
Theorem main_touches_target_only cds argv w path :
  (∀ dataset request target fs,
     target ≠ path →
     (Client_retrieve cds dataset request target fs).2 !! path = fs !! path) →
  (∀ a y, argv !! 1%nat = Some a → int a = Some y →
          path ≠ "discharge_" +:+ str y +:+ "_full.nc.zip") →
  files (main cds argv w).2 !! path = files w !! path.
Proof.
  intros Hframe Hpath. rewrite main_files.
  destruct (argv !! 1%nat) as [a|] eqn:Ha; [destruct (int a) as [y|] eqn:Hy|];
    [|done..].
  case_bool_decide; [done|].
  apply Hframe. intros Heq. by apply (Hpath a y).
Qed.

Lemma main_touches_target_only_witness :
  (∀ dataset request target fs,
     target ≠ "discharge_2019_full.nc.zip" →
     (Client_retrieve cds_fail dataset request target fs).2
       !! "discharge_2019_full.nc.zip"
     = fs !! "discharge_2019_full.nc.zip") ∧
  (∀ a y, ["download.py"; "2020"] !! 1%nat = Some a → int a = Some y →
          "discharge_2019_full.nc.zip"
          ≠ "discharge_" +:+ str y +:+ "_full.nc.zip") ∧
  files (main cds_fail ["download.py"; "2020"] w_cached).2
    !! "discharge_2019_full.nc.zip"
  = Some "truncated".
Proof.
  assert (∀ dataset request target fs,
     target ≠ "discharge_2019_full.nc.zip" →
     (Client_retrieve cds_fail dataset request target fs).2
       !! "discharge_2019_full.nc.zip"
     = fs !! "discharge_2019_full.nc.zip") as Hframe.
  { intros dataset request target fs Hne. simpl. by apply lookup_insert_ne. }
  assert (∀ a y, ["download.py"; "2020"] !! 1%nat = Some a → int a = Some y →
          "discharge_2019_full.nc.zip"
          ≠ "discharge_" +:+ str y +:+ "_full.nc.zip") as Hpath.
  { intros a y [= <-] [= <-]. discriminate. }
  split; [exact Hframe|]. split; [exact Hpath|].
  exact (main_touches_target_only cds_fail ["download.py"; "2020"] w_cached
           "discharge_2019_full.nc.zip" Hframe Hpath).
Defined.

(** ** Arguments that are numerals *)

Lemma app_nil_r (s : string) : s +:+ "" = s.
Proof. induction s as [|a s IH]; [done|]. by rewrite app_cons_l, IH. Qed.

Lemma str_all_rev_app p s1 s2 :
  str_all p (String.rev_app s1 s2) = str_all p s1 && str_all p s2.
Proof.
  revert s2. induction s1 as [|a s1 IH]; intros s2; simpl; [done|].
  rewrite IH; simpl. by destruct (p a), (str_all p s1).
Qed.

Lemma rev_app_rev_app s1 s2 s3 :
  String.rev_app (String.rev_app s1 s2) s3 = String.rev_app s2 (s1 +:+ s3).
Proof.
  revert s2. induction s1 as [|a s1 IH]; intros s2; simpl; [done|].
  by rewrite IH.
Qed.

Lemma rev_involutive s : String.rev (String.rev s) = s.
Proof. unfold String.rev. by rewrite rev_app_rev_app, app_nil_r. Qed.

Lemma lstrip_id s :
  str_all (λ a, negb (Ascii.is_space a)) s = true → lstrip s = s.
Proof.
  destruct s as [|a s]; simpl; [done|].
  by destruct (Ascii.is_space a).
Qed.

(** A string without white space is left as it is. *)
Lemma strip_id s :
  str_all (λ a, negb (Ascii.is_space a)) s = true → strip s = s.
Proof.
  intros Hs. unfold strip. rewrite (lstrip_id s Hs), lstrip_id.
  - apply rev_involutive.
  - unfold String.rev. by rewrite str_all_rev_app, Hs.
Qed.

Lemma digit_cases (d : N) :
  (d < 10)%N →
  d = 0%N ∨ d = 1%N ∨ d = 2%N ∨ d = 3%N ∨ d = 4%N ∨
  d = 5%N ∨ d = 6%N ∨ d = 7%N ∨ d = 8%N ∨ d = 9%N.
Proof. lia. Qed.

Ltac by_digit d Hd :=
  destruct (digit_cases d Hd)
    as [->|[->|[->|[->|[->|[->|[->|[->|[->| ->]]]]]]]]].

Lemma digits_from_digit acc d t :
  (d < 10)%N →
  digits_from acc false (String (pretty_N_char d) t)
  = digits_from (10 * acc + Z.of_N d) false t.
Proof. intros Hd. by_digit d Hd; reflexivity. Qed.

(** Reading back the digits that [pretty_N_go] puts in front of [s]. *)
Lemma digits_from_pretty_N_go x s :
  ∃ k : nat, ∀ acc,
    digits_from acc false (pretty_N_go x s)
    = digits_from (acc * 10 ^ Z.of_nat k + Z.of_N x) false s.
Proof.
  revert s. induction (N.lt_wf_0 x) as [x _ IH]; intros s.
  destruct (decide (x = 0)%N) as [->|Hx].
  - exists 0%nat. intros acc. rewrite pretty_N_go_0. f_equal. simpl. lia.
  - rewrite pretty_N_go_step by lia.
    destruct (IH (x `div` 10)%N (N.div_lt x 10 ltac:(lia) ltac:(lia))
                (String (pretty_N_char (x `mod` 10)) s)) as [k Hk].
    exists (S k). intros acc.
    rewrite Hk, digits_from_digit by (apply N.mod_lt; lia).
    f_equal. rewrite Nat2Z.inj_succ, Z.pow_succ_r by lia.
    pose proof (N.div_mod x 10 ltac:(lia)) as Hdm.
    set (q := (x `div` 10)%N) in *. set (r := (x `mod` 10)%N) in *. lia.
Qed.

(** A positive number is printed with a digit in front. *)
Lemma pretty_N_go_head x s :
  (0 < x)%N →
  ∃ d t, (d < 10)%N ∧ pretty_N_go x s = String (pretty_N_char d) t.
Proof.
  revert s. induction (N.lt_wf_0 x) as [x _ IH]; intros s Hx.
  rewrite pretty_N_go_step by done.
  destruct (decide (x `div` 10 = 0)%N) as [->|Hq].
  - rewrite pretty_N_go_0. exists (x `mod` 10)%N, s.
    split; [apply N.mod_lt; lia|done].
  - apply IH; [apply N.div_lt; lia | by apply N.neq_0_lt_0].
Qed.

Lemma digits_pretty_pos (p : positive) : digits (pretty (Npos p)) = Some (Zpos p).
Proof.
  unfold pretty, pretty_N. rewrite decide_False by done.
  destruct (pretty_N_go_head (Npos p) "" ltac:(lia)) as (d & t & Hd & Hhead).
  destruct (digits_from_pretty_N_go (Npos p) "") as [k Hk].
  specialize (Hk 0). rewrite Hhead in Hk |- *.
  transitivity (digits_from 0 false (String (pretty_N_char d) t)).
  - clear Hk Hhead. by_digit d Hd; reflexivity.
  - rewrite Hk. simpl. done.
Qed.

Lemma pretty_pos_head (p : positive) :
  ∃ d t, (d < 10)%N ∧ pretty (Npos p) = String (pretty_N_char d) t.
Proof.
  unfold pretty, pretty_N. rewrite decide_False by done.
  apply pretty_N_go_head. lia.
Qed.

(** An argument of characters below 127 is its own ASCII form. *)
Lemma utf8_decode_ascii s :
  str_all (λ a, bool_decide (N_of_ascii a < 127)%N) s = true →
  ∃ cs, utf8_decode s = Some cs ∧ transform cs = s.
Proof.
  induction s as [|a s IH]; simpl str_all; [by exists []|].
  intros [Ha Hs]%andb_true_iff. apply bool_decide_eq_true in Ha.
  destruct (IH Hs) as (cs & Hcs & Htr).
  exists (N_of_ascii a :: cs). split.
  - cbn [utf8_decode].
    destruct (N_of_ascii a <? 128)%N eqn:Hlt; [by rewrite Hcs|].
    apply N.ltb_ge in Hlt. lia.
  - simpl. rewrite Htr. f_equal. unfold to_ascii.
    rewrite (proj2 (N.ltb_lt _ _)) by lia. apply ascii_N_embedding.
Qed.

Lemma int_ascii s :
  str_all (λ a, bool_decide (N_of_ascii a < 127)%N) s = true →
  int s = long_from_string s.
Proof.
  intros Hs. destruct (utf8_decode_ascii s Hs) as (cs & Hcs & Htr).
  unfold int. by rewrite Hcs; simpl; rewrite Htr.
Qed.

Lemma digit_pretty_N_char d : is_Some (digit (pretty_N_char d)).
Proof. unfold pretty_N_char. by repeat case_match. Qed.

(** A number below [10 ^ n] is printed with at most [n] digits. *)
Lemma digit_count_pretty_N_go (n : nat) x s :
  (x < 10 ^ N.of_nat n)%N →
  (digit_count (pretty_N_go x s) ≤ N.of_nat n + digit_count s)%N.
Proof.
  revert x s. induction n as [|n IH]; intros x s Hx.
  - assert (x = 0%N) as -> by (simpl in Hx; lia). rewrite pretty_N_go_0. lia.
  - destruct (decide (x = 0)%N) as [->|Hx0]; [rewrite pretty_N_go_0; lia|].
    rewrite pretty_N_go_step by lia.
    rewrite Nat2N.inj_succ, N.pow_succ_r' in Hx.
    etrans; [apply IH; by apply N.Div0.div_lt_upper_bound|].
    simpl. destruct (digit_pretty_N_char (x `mod` 10)) as [v ->]. lia.
Qed.

Lemma digit_range a d : digit a = Some d → (0 ≤ d ≤ 9)%Z.
Proof.
  unfold digit, Ascii.is_nat.
  destruct a as [[] [] [] [] [] [] [] []]; simpl; intros [= <-]; lia.
Qed.

(** The value of a literal is below ten to the number of its digits. *)
Lemma digits_from_bound s acc us v :
  (0 ≤ acc)%Z →
  digits_from acc us s = Some v →
  (0 ≤ v < (acc + 1) * 10 ^ Z.of_N (digit_count s))%Z.
Proof.
  revert acc us. induction s as [|a s IH]; intros acc us Hacc; simpl.
  - destruct us; intros [= <-]. lia.
  - case_decide as Ha.
    + subst a. simpl. destruct us; [done|]. by apply IH.
    + destruct (digit a) as [d|] eqn:Hd; [|done].
      apply digit_range in Hd. intros Hv.
      apply IH in Hv; [|lia].
      rewrite N2Z.inj_succ, Z.pow_succ_r by lia.
      assert (0 < 10 ^ Z.of_N (digit_count s)) by (apply Z.pow_pos_nonneg; lia).
      nia.
Qed.

Lemma digits_bound s v :
  digits s = Some v → (0 ≤ v < 10 ^ Z.of_N (digit_count s))%Z.
Proof.
  destruct s as [|a s]; simpl; [done|].
  destruct (digit a) as [d|] eqn:Hd; [|done].
  apply digit_range in Hd. intros Hv. apply digits_from_bound in Hv; [|lia].
  rewrite N2Z.inj_succ, Z.pow_succ_r by lia.
  assert (0 < 10 ^ Z.of_N (digit_count s)) by (apply Z.pow_pos_nonneg; lia).
  nia.
Qed.

Lemma digits_limited_bound s v :
  digits_limited s = Some v → (0 ≤ v < 10 ^ Z.of_N max_str_digits)%Z.
Proof.
  unfold digits_limited. case_decide as Hc; [|done].
  intros Hv%digits_bound. split; [lia|].
  eapply Z.lt_le_trans; [apply Hv|].
  apply Z.pow_le_mono_r; lia.
Qed.

Lemma long_from_string_sign t y :
  long_from_string t = Some y →
  ∃ r v, digits_limited r = Some v ∧ (y = v ∨ y = - v).
Proof.
  unfold long_from_string. destruct (strip t) as [|a r].
  { intros Hy. exists "", y. auto. }
  destruct a as [[] [] [] [] [] [] [] []]; simpl; intros Hy;
    match type of Hy with
    | Z.opp <$> digits_limited ?r' = Some _ =>
        destruct (digits_limited r') as [v|] eqn:Hv; [|done];
        injection Hy as <-; exists r', v; auto
    | digits_limited ?r' = Some _ => exists r', y; auto
    end.
Qed.

(** [int()] returns no integer of more than [max_str_digits] digits. *)
Lemma int_bound a y : int a = Some y → Z.abs y < 10 ^ Z.of_N max_str_digits.
Proof.
  unfold int. destruct (utf8_decode a) as [cs|]; [|done].
  intros Hy. change (long_from_string (transform cs) = Some y) in Hy.
  apply long_from_string_sign in Hy as (r & v & Hv%digits_limited_bound & Hy).
  revert Hv. generalize (10 ^ Z.of_N max_str_digits). intros B Hv.
  destruct Hy as [-> | ->]; lia.
Qed.

Lemma digits_limited_pretty_pos (p : positive) :
  Z.pos p < 10 ^ Z.of_N max_str_digits →
  digits_limited (pretty (Npos p)) = Some (Z.pos p).
Proof.
  intros Hp. unfold digits_limited. rewrite decide_True; [apply digits_pretty_pos|].
  unfold pretty, pretty_N. rewrite decide_False by done.
  pose proof (digit_count_pretty_N_go (N.to_nat max_str_digits) (Npos p) "") as Hc.
  rewrite N2Nat.id, N.add_0_r in Hc. apply Hc.
  apply N2Z.inj_lt. by rewrite N2Z.inj_pow.
Qed.

(** Within the limit, [int()] reads back what [str()] writes. *)
Lemma int_str y : Z.abs y < 10 ^ Z.of_N max_str_digits → int (str y) = Some y.
Proof.
  intros Hy. rewrite int_ascii.
  2:{ apply str_all_str; [|done].
      intros d. unfold pretty_N_char. by repeat case_match. }
  unfold long_from_string. rewrite strip_id.
  2:{ apply str_all_str; [|done].
      intros d. unfold pretty_N_char. by repeat case_match. }
  destruct y as [|p|p]; [done| |].
  - change (str (Z.pos p)) with (pretty (Npos p)).
    pose proof (digits_limited_pretty_pos p Hy) as Hp.
    destruct (pretty_pos_head p) as (d & t & Hd & Hhead).
    rewrite Hhead in Hp |- *. clear Hhead.
    by_digit d Hd; exact Hp.
  - change (Z.opp <$> digits_limited (pretty (Npos p)) = Some (Z.neg p)).
    by rewrite (digits_limited_pretty_pos p Hy).
Qed.

Lemma str_limited_within y :
  Z.abs y < 10 ^ Z.of_N max_str_digits → str_limited y = Some (str y).
Proof. intros Hy. unfold str_limited. by rewrite decide_True. Qed.

(** The built-ins on arguments beyond ASCII and at the digit limit. *)
Lemma int_unicode_examples :
  int "２０１９" = Some 2019 ∧ int " 2019" = Some 2019 ∧
  int "٢٠١٩" = Some 2019 ∧ int "2019　" = Some 2019 ∧
  int "20１9" = Some 2019 ∧ int "²" = None ∧ int "20 19" = None.
Proof. repeat split. Qed.

(** A year in fullwidth digits, or behind a no-break space, is the year. *)
Lemma main_unicode_year cds w :
  main cds ["download.py"; "２０１９"] w = main cds ["download.py"; "2019"] w ∧
  main cds ["download.py"; " 2019"] w = main cds ["download.py"; "2019"] w.
Proof.
  rewrite (main_run_year cds ["download.py"; "２０１９"] "２０１９" 2019 w)
    by reflexivity.
  rewrite (main_run_year cds ["download.py"; " 2019"] " 2019" 2019 w)
    by reflexivity.
  rewrite (main_run_year cds ["download.py"; "2019"] "2019" 2019 w)
    by reflexivity.
  done.
Qed.

Lemma int_limit_examples :
  int (Nat.iter 4299 (String "0") "1") = Some 1 ∧
  int (Nat.iter 4300 (String "0") "1") = None.
Proof. split; vm_compute; reflexivity. Qed.

(** X13: [main] accepts every year the interpreter can write: for every
    integer [y] of at most 4300 digits, zero and the negative ones included,
    the argument [str(y)] makes [main] print 'downloading year ' followed by
    that numeral, and when the target file is missing make its one delegated
    call with ['hyear'] [str(y)] and target [discharge_<str(y)>_full.nc.zip]. *)
Theorem main_accepts_every_integer cds prog y w :
  Z.abs y < 10 ^ Z.of_N max_str_digits →
  printed (new_events w (main cds [prog; str y] w).2)
  = ["downloading year " +:+ str y] ∧
  (files w !! ("discharge_" +:+ str y +:+ "_full.nc.zip") = None →
   ∃ request,
     delegated (new_events w (main cds [prog; str y] w).2)
     = [("efas-historical", request, "discharge_" +:+ str y +:+ "_full.nc.zip")] ∧
     request !! "hyear" = Some (PStr (str y))).
Proof.
  intros Hy.
  rewrite main_new_events. cbn [lookup list_lookup].
  rewrite (int_str y Hy). unfold full_name. split.
  - by case_bool_decide.
  - intros Hf. exists (retrievefull_request y).
    rewrite bool_decide_eq_false_2 by (rewrite Hf; by intros [? ?]).
    split; [done|apply retrievefull_request_hyear].
Qed.

Lemma main_accepts_every_integer_witness :
  Z.abs (-5) < 10 ^ Z.of_N max_str_digits ∧
  files w_cached !! ("discharge_" +:+ str (-5) +:+ "_full.nc.zip") = None ∧
  printed (new_events w_cached (main cds_ok ["download.py"; "-5"] w_cached).2)
  = ["downloading year -5"] ∧
  ∃ request,
    delegated (new_events w_cached (main cds_ok ["download.py"; "-5"] w_cached).2)
    = [("efas-historical", request, "discharge_-5_full.nc.zip")] ∧
    request !! "hyear" = Some (PStr "-5").
Proof.
  assert (Z.abs (-5) < 10 ^ Z.of_N max_str_digits) as Hy
    by (vm_compute; reflexivity).
  destruct (main_accepts_every_integer cds_ok "download.py" (-5) w_cached Hy)
    as (Hprint & Hcall).
  split; [exact Hy|]. split; [reflexivity|]. split; [exact Hprint|].
  apply Hcall. reflexivity.
Defined.

(** ** The digit limit on formatting the year *)

Lemma format_year_within y w :
  Z.abs y < 10 ^ Z.of_N max_str_digits →
  guarded.format_year y w = (Ok (str y), w).
Proof. intros Hy. unfold guarded.format_year. by rewrite str_limited_within. Qed.


Lemma guarded_retrievefull_within cds y w :
  Z.abs y < 10 ^ Z.of_N max_str_digits →
  guarded.retrievefull cds y w = retrievefull cds y w.
Proof.
  intros Hy.
  unfold guarded.retrievefull, guarded.retrievefull_display, retrievefull,
    mbind, M_bind, enter, path_exists; simpl.
  rewrite !format_year_within by done.
  change (files (log (Enter Fretrievefull) w)) with (files w).
  destruct (bool_decide _); simpl; [done|].
  by rewrite format_year_within.
Qed.

Lemma guarded_retrieve_within cds y w :
  Z.abs y < 10 ^ Z.of_N max_str_digits →
  guarded.retrieve cds y w = retrieve cds y w.
Proof.
  intros Hy.
  unfold guarded.retrieve, guarded.retrieve_display, retrieve,
    mbind, M_bind, enter, path_exists; simpl.
  rewrite !format_year_within by done.
  change (files (log (Enter Fretrieve) w)) with (files w).
  destruct (bool_decide _); simpl; [done|].
  by rewrite format_year_within.
Qed.

(** X14: the digit limit never strikes in [main]: a year that [int()]
    returned has at most 4300 digits, so the three places that format it
    (the line printed, the file name, ['hyear']) do not raise; for every
    argument list and every world, [main] with the limit in place runs
    exactly as [main] without it. *)
Theorem main_within_digit_limit cds argv w :
  guarded.main cds argv w = main cds argv w ∧
  ∀ a y, argv !! 1%nat = Some a → int a = Some y →
         Z.abs y < 10 ^ Z.of_N max_str_digits ∧
         guarded.retrievefull cds y w = retrievefull cds y w.
Proof.
  split.
  - unfold guarded.main, main, mbind, M_bind, enter, argv_get, int_of, print.
    destruct (argv !! 1%nat) as [a|]; simpl; [|done].
    destruct (int a) as [y|] eqn:Hy; simpl; [|done].
    apply int_bound in Hy.
    by rewrite format_year_within, guarded_retrievefull_within.
  - intros a y _ Hy%int_bound. split; [done|].
    by apply guarded_retrievefull_within.
Qed.

Lemma main_within_digit_limit_witness :
  ["download.py"; "２０１９"] !! 1%nat = Some "２０１９" ∧
  int "２０１９" = Some 2019 ∧
  Z.abs 2019 < 10 ^ Z.of_N max_str_digits ∧
  guarded.retrievefull cds_ok 2019 w_empty = retrievefull cds_ok 2019 w_empty.
Proof.
  split; [reflexivity|]. split; [reflexivity|].
  exact (proj2 (main_within_digit_limit cds_ok ["download.py"; "２０１９"] w_empty)
           "２０１９" 2019 eq_refl eq_refl).
Defined.







(** ** The request builder *)



